(** * pointblank_server: the session layer of the Pointblank MCP server

    A shallow embedding of [mcp_folder/pointblank_server.py]: the two
    registries of [AppContext] and the five tools that read and mutate them
    ([load_dataframe], [create_validator], [add_validation_step],
    [get_validation_step_output], [interrogate_validator]).

    The tools are thin orchestration code around collaborators that live
    outside the repository (pandas, pathlib, json, uuid, the pointblank rule
    engine, the MCP request context).  These are gathered in the [Engine]
    interface below; every tool is a program in a small state-and-exception
    monad over a [World] that holds the registries and a chronological trace
    of the effects the tool has requested. *)

From Stdlib Require Import String ZArith List Bool Ascii.
From stdpp Require Import gmap strings pretty.
Import ListNotations.
Local Open Scope string_scope.

(** ** Python exceptions *)

(** The classes the source raises or tells apart in an [except] clause.
    [OtherException] stands for any other subclass of [Exception]. *)
Inductive exn_class :=
| ValueError
| RuntimeError
| TypeError
| FileNotFoundError
| OtherException.

(** An exception object: its class and [str(e)]. *)
Record PyExn := mkExn { exn_cls : exn_class; exn_str : string }.

Definition is_TypeError (e : PyExn) : bool :=
  match exn_cls e with TypeError => true | _ => false end.

Inductive result (A : Type) :=
| Returned (a : A)
| Raised (e : PyExn).
Arguments Returned {A} a.
Arguments Raised {A} e.

(** ** Strings *)

(** [str.lower], on the ASCII letters (the only ones that matter for the
    comparisons with [".csv"], [".xls"], ... the source makes). *)
Definition lower_ascii (c : ascii) : ascii :=
  let n := nat_of_ascii c in
  if (65 <=? n)%nat && (n <=? 90)%nat then ascii_of_nat (n + 32) else c.

Fixpoint lower (s : string) : string :=
  match s with
  | EmptyString => EmptyString
  | String c s' => String (lower_ascii c) (lower s')
  end.

(** [s.endswith(suffix)] *)
Definition endswith (s suffix : string) : bool :=
  let n := String.length s in
  let k := String.length suffix in
  (k <=? n)%nat && String.eqb (substring (n - k) k s) suffix.

(** [repr] of a list of plain strings: ['a', 'b', ...]. *)
Fixpoint repr_items (l : list string) : string :=
  match l with
  | [] => ""
  | [k] => "'" +:+ k +:+ "'"
  | k :: rest => "'" +:+ k +:+ "', " +:+ repr_items rest
  end.

Definition repr_str_list (l : list string) : string :=
  "[" +:+ repr_items l +:+ "]".

(** ** The validation methods of [pb.Validate] the dispatcher can reach *)

Inductive engine_method :=
| col_vals_lt | col_vals_gt | col_vals_le | col_vals_ge
| col_vals_eq | col_vals_ne | col_vals_between | col_vals_outside
| col_vals_in_set | col_vals_not_in_set | col_vals_null | col_vals_not_null
| col_vals_regex | col_vals_expr | col_count_match
| col_exists
| rows_distinct | rows_complete | row_count_match
| conjointly | col_schema_match.

(** The dispatch table of [add_validation_step], in source order.  The keys
    are the caller-facing type names; several differ from the method they
    select ([col_vals_lte] selects [col_vals_le], ...). *)
Definition supported_validations : list (string * engine_method) :=
  [ ("col_vals_lt", col_vals_lt);
    ("col_vals_gt", col_vals_gt);
    ("col_vals_lte", col_vals_le);
    ("col_vals_gte", col_vals_ge);
    ("col_vals_equal", col_vals_eq);
    ("col_vals_not_equal", col_vals_ne);
    ("col_vals_between", col_vals_between);
    ("col_vals_not_between", col_vals_outside);
    ("col_vals_in_set", col_vals_in_set);
    ("col_vals_not_in_set", col_vals_not_in_set);
    ("col_vals_null", col_vals_null);
    ("col_vals_not_null", col_vals_not_null);
    ("col_vals_regex", col_vals_regex);
    ("col_vals_expr", col_vals_expr);
    ("col_count_match", col_count_match);
    ("col_exists", col_exists);
    ("rows_distinct", rows_distinct);
    ("rows_complete", rows_complete);
    ("row_count_match", row_count_match);
    ("conjointly", conjointly);
    ("col_schema_match", col_schema_match) ].

(** [supported_validations.keys()] *)
Definition supported_keys : list string := map fst supported_validations.

(** [supported_validations[validation_type]], [None] when
    [validation_type not in supported_validations]. *)
Fixpoint dict_get {A} (d : list (string * A)) (k : string) : option A :=
  match d with
  | [] => None
  | (k', a) :: d' => if String.eqb k k' then Some a else dict_get d' k
  end.

(** The keyword arguments [create_validator] assembles for [pb.Validate]:
    the three entries that are always present and the six optional ones
    ([None] when the key is left out of [validator_instance_params]). *)
Record ValidateArgs (DF T A FA : Type) := {
  arg_data : DF;
  arg_tbl_name : string;
  arg_label : string;
  arg_thresholds : option T;
  arg_actions : option A;
  arg_final_actions : option FA;
  arg_brief : option bool;
  arg_lang : option string;
  arg_locale : option string;
}.
Arguments arg_data {DF T A FA} _.
Arguments arg_tbl_name {DF T A FA} _.
Arguments arg_label {DF T A FA} _.
Arguments arg_thresholds {DF T A FA} _.
Arguments arg_actions {DF T A FA} _.
Arguments arg_final_actions {DF T A FA} _.
Arguments arg_brief {DF T A FA} _.
Arguments arg_lang {DF T A FA} _.
Arguments arg_locale {DF T A FA} _.

(** ** External collaborators *)

(** Everything the server calls but does not define.  Calls that can raise
    return a [result]; calls on a [Validate] object that mutate it in place
    return the object's state after the call next to the outcome. *)
Class Engine := {
  (** pandas *)
  DataFrame : Type;
  (** the values of a caller-supplied [Dict[str, Any]] *)
  Value : Type;
  (** pointblank objects *)
  Validate : Type;
  Thresholds : Type;
  Actions : Type;
  FinalActions : Type;
  (** what [get_data_extracts] / [get_sundered_data] hand back *)
  Extract : Type;
  (** what [json.loads] hands back *)
  Json : Type;

  (** pathlib and the file system *)
  path_exists : string -> bool;
  path_suffix : string -> string;
  path_resolve : string -> string;
  mkdir_parents : string -> option PyExn;
  read_csv : string -> result DataFrame;
  read_excel : string -> result DataFrame;
  read_parquet : string -> result DataFrame;
  to_csv : DataFrame -> string -> option PyExn;
  frame_shape : DataFrame -> nat * nat;
  frame_columns : DataFrame -> list string;

  (** the n-th value of [uuid.uuid4().hex[:8]] drawn by the process *)
  uuid4_hex8 : nat -> string;

  (** constructors of the rule engine *)
  pb_Thresholds : list (string * Value) -> result Thresholds;
  pb_Actions : list (string * Value) -> result Actions;
  pb_FinalActions : list (string * Value) -> result FinalActions;
  pb_Validate : ValidateArgs DataFrame Thresholds Actions FinalActions ->
                result Validate;

  (** [repr] of a parameter dict, as an f-string prints it *)
  repr_kwargs : list (string * Value) -> string;

  (** methods of a [Validate] object *)
  call_method : engine_method -> list (string * Value) -> Validate ->
                option PyExn * Validate;
  time_processed : Validate -> bool;
  interrogate : Validate -> option PyExn * Validate;
  get_json_report : Validate -> result string;
  get_data_extracts : Validate -> Z -> result (option Extract);
  get_sundered_data : Validate -> string -> result (option Extract);

  (** the extract object: [.empty], [isinstance(_, pd.DataFrame)],
      [type(_).__name__] *)
  extract_empty : Extract -> result bool;
  extract_as_pandas : Extract -> option DataFrame;
  extract_type_name : Extract -> string;

  (** json and the report table *)
  json_loads : string -> result Json;
  report_frame : Json -> result DataFrame;
}.

(** A caller-supplied [Dict[str, Any]]: insertion-ordered. *)
Abbreviation kwargs := (list (string * Value)).

(** ** What the tools return *)

Record DataFrameInfo := mkDataFrameInfo {
  df_id : string;
  shape : nat * nat;
  columns : list string;
}.

Record ValidatorInfo := mkValidatorInfo {
  validator_id : string;
}.

Module ValidationStepInfo.
Record t := mk {
  validator_id : string;
  status : string;
}.
End ValidationStepInfo.

Module ValidationOutput.
Record t := mk {
  status : string;
  message : string;
  output_file : option string;
}.
End ValidationOutput.

(** ** The session state and the effects of a tool call *)

(** What a tool asks of the outside world, in the order it asks. *)
Inductive event `{Engine} :=
| CtxWarning (msg : string)                       (* await ctx.warning(msg) *)
| CtxProgress (progress total : Z) (msg : string) (* await ctx.report_progress *)
| Print (msg : string)                            (* print(msg) *)
| Mkdir (path : string)            (* Path(path).parent.mkdir(parents, exist_ok) *)
| ToCsv (frame : DataFrame) (path : string)       (* frame.to_csv(path) *)
| ReadTable (path : string)                       (* pd.read_csv / excel / parquet *)
| MkThresholds (d : kwargs)
| MkActions (d : kwargs)
| MkFinalActions (d : kwargs)
| MkValidate
| CallMethod (validator_id : string) (m : engine_method) (params : kwargs)
| CallInterrogate (validator_id : string)
| CallGetJsonReport (validator_id : string)
| CallGetDataExtracts (validator_id : string) (i : Z)
| CallGetSunderedData (validator_id : string) (type : string).

(** [AppContext]: the two registries. *)
Record AppContext `{Engine} := mkAppContext {
  loaded_dataframes : gmap string DataFrame;
  active_validators : gmap string Validate;
}.
Arguments mkAppContext {_} _ _.
Arguments loaded_dataframes {_} _.
Arguments active_validators {_} _.

(** The registries, the number of uuids drawn so far, and the trace. *)
Record World `{Engine} := mkWorld {
  app_ctx : AppContext;
  uuid_draws : nat;
  trace : list event;
}.
Arguments mkWorld {_} _ _ _.
Arguments app_ctx {_} _.
Arguments uuid_draws {_} _.
Arguments trace {_} _.

Section Server.
Context `{Eng : Engine}.

(** *** The monad: state over [World], exceptions as [Raised] *)

Definition M (A : Type) : Type := World -> result A * World.

Definition ret {A} (a : A) : M A := fun w => (Returned a, w).

Definition raise {A} (e : PyExn) : M A := fun w => (Raised e, w).

Definition bind {A B} (c : M A) (k : A -> M B) : M B :=
  fun w =>
    match c w with
    | (Returned a, w') => k a w'
    | (Raised e, w') => (Raised e, w')
    end.

(** [try: c  except Exception as e: h e] *)
Definition try_except {A} (c : M A) (h : PyExn -> M A) : M A :=
  fun w =>
    match c w with
    | (Returned a, w') => (Returned a, w')
    | (Raised e, w') => h e w'
    end.

Definition emit (ev : event) : M unit :=
  fun w => (Returned tt,
            mkWorld (app_ctx w) (uuid_draws w) (trace w ++ [ev])).

Definition get_ctx : M AppContext := fun w => (Returned (app_ctx w), w).

Definition put_ctx (c : AppContext) : M unit :=
  fun w => (Returned tt, mkWorld c (uuid_draws w) (trace w)).

Definition lift_result {A} (r : result A) : M A := fun w => (r, w).

Definition lift_unit (r : option PyExn) : M unit :=
  match r with
  | None => ret tt
  | Some e => raise e
  end.

(** stdpp's monad notations: [x ← c; k] and [c;; k]. *)
#[global] Instance M_ret : MRet M := @ret.
#[global] Instance M_bind : MBind M := fun A B k c => bind c k.


(** *** Calls on collaborators, each leaving its event in the trace *)

Definition ctx_warning (msg : string) : M unit := emit (CtxWarning msg).

Definition ctx_report_progress (progress total : Z) (msg : string) : M unit :=
  emit (CtxProgress progress total msg).

Definition print (msg : string) : M unit := emit (Print msg).

(** [Path(path).parent.mkdir(parents=True, exist_ok=True)] *)
Definition parent_mkdir (path : string) : M unit :=
  emit (Mkdir path);; lift_unit (mkdir_parents path).

(** [frame.to_csv(path, index=False)] *)
Definition frame_to_csv (frame : DataFrame) (path : string) : M unit :=
  emit (ToCsv frame path);; lift_unit (to_csv frame path).

(** [uuid.uuid4().hex[:8]] *)
Definition uuid4_hex : M string :=
  fun w => (Returned (uuid4_hex8 (uuid_draws w)),
            mkWorld (app_ctx w) (S (uuid_draws w)) (trace w)).

(** [app_ctx.active_validators[validator_id]], already known to be there. *)
Definition the_validator (validator_id : string) : M Validate :=
  c ← get_ctx;
  match active_validators c !! validator_id with
  | Some v => ret v
  | None => raise (mkExn OtherException validator_id)   (* KeyError *)
  end.

(** The validator objects live in the registry and are mutated in place:
    a method call on one is a change of the registry entry. *)
Definition set_validator (validator_id : string) (v : Validate) : M unit :=
  c ← get_ctx;
  put_ctx (mkAppContext (loaded_dataframes c)
                        (<[validator_id := v]> (active_validators c))).

(** A mutating method call [validator.f(...)], where [f] is [call]. *)
Definition mutating_call (validator_id : string)
    (call : Validate -> option PyExn * Validate) : M unit :=
  v ← the_validator validator_id;
  let '(outcome, v') := call v in
  set_validator validator_id v';;
  lift_unit outcome.

(** A reading method call. *)
Definition reading_call {A} (validator_id : string)
    (call : Validate -> result A) : M A :=
  v ← the_validator validator_id;
  lift_result (call v).

(** ** [_load_dataframe_from_path] *)

Definition _load_dataframe_from_path (input_path : string) : M DataFrame :=
  if negb (path_exists input_path) then
    raise (mkExn FileNotFoundError
                 ("Input file '" +:+ input_path +:+ "' not found."))
  else if String.eqb (lower (path_suffix input_path)) ".csv" then
    emit (ReadTable input_path);; lift_result (read_csv input_path)
  else if String.eqb (lower (path_suffix input_path)) ".xls"
          || String.eqb (lower (path_suffix input_path)) ".xlsx" then
    emit (ReadTable input_path);; lift_result (read_excel input_path)
  else if String.eqb (lower (path_suffix input_path)) ".parquet" then
    emit (ReadTable input_path);; lift_result (read_parquet input_path)
  else
    raise (mkExn ValueError
                 ("Unsupported file type: " +:+ path_suffix input_path
                  +:+ ". Please use CSV or Excel.")).

(** ** [load_dataframe] *)

(** Truthiness of an [Optional[str]]: [None] and [""] are false. *)
Definition truthy_str (s : option string) : option string :=
  match s with
  | Some "" => None
  | Some s' => Some s'
  | None => None
  end.

Definition load_dataframe (input_path : string) (df_id : option string)
  : M DataFrameInfo :=
  df ← _load_dataframe_from_path input_path;
  effective_df_id ←
    match truthy_str df_id with
    | Some s => ret s
    | None => h ← uuid4_hex; ret ("df_" +:+ h)
    end;
  c ← get_ctx;
  if decide (is_Some (loaded_dataframes c !! effective_df_id)) then
    raise (mkExn ValueError
      ("DataFrame ID '" +:+ effective_df_id +:+
       "' already exists. Choose a different ID or omit to generate a new one."))
  else
    put_ctx (mkAppContext (<[effective_df_id := df]> (loaded_dataframes c))
                          (active_validators c));;
    ret (mkDataFrameInfo effective_df_id (frame_shape df) (frame_columns df)).

(** ** [create_validator] *)

(** Truthiness of an [Optional[Dict]]: [None] and [{}] are false. *)
Definition truthy_dict (d : option kwargs) : option kwargs :=
  match d with
  | Some (kv :: rest) => Some (kv :: rest)
  | _ => None
  end.

(** The [Thresholds], [Actions] and [FinalActions] objects the engine hands
    back are plain instances, hence truthy: [if pb_thresholds:] holds exactly
    when the object was built. *)
Definition create_validator
    (df_id : string)
    (validator_id table_name validator_label : option string)
    (thresholds_dict actions_dict final_actions_dict : option kwargs)
    (brief : option bool) (lang locale : option string)
  : M ValidatorInfo :=
  c ← get_ctx;
  match loaded_dataframes c !! df_id with
  | None =>
      raise (mkExn ValueError
        ("DataFrame ID '" +:+ df_id +:+
         "' not found. Please load it first using 'load_dataframe'."))
  | Some df =>
      effective_validator_id ←
        match truthy_str validator_id with
        | Some s => ret s
        | None => h ← uuid4_hex; ret ("validator_" +:+ h)
        end;
      if decide (is_Some (active_validators c !! effective_validator_id)) then
        raise (mkExn ValueError
          ("Validator ID '" +:+ effective_validator_id +:+
           "' already exists. Choose a different ID or omit to generate a new one."))
      else
        let actual_table_name :=
          match truthy_str table_name with
          | Some s => s
          | None => "table_for_" +:+ df_id
          end in
        let actual_validator_label :=
          match truthy_str validator_label with
          | Some s => s
          | None => "Validation for " +:+ actual_table_name
          end in
        pb_thresholds ←
          match truthy_dict thresholds_dict with
          | Some d =>
              try_except
                (emit (MkThresholds d);;
                 t ← lift_result (pb_Thresholds d); ret (Some t))
                (fun e => raise (mkExn ValueError
                   ("Error creating pb.Thresholds from thresholds_dict: "
                    +:+ exn_str e)))
          | None => ret None
          end;
        pb_actions ←
          match truthy_dict actions_dict with
          | Some d =>
              try_except
                (emit (MkActions d);;
                 a ← lift_result (pb_Actions d); ret (Some a))
                (fun e =>
                   print ("Could not create pb.Actions from actions_dict: "
                          +:+ exn_str e +:+ ". Passing None.");;
                   ret None)
          | None => ret None
          end;
        pb_final_actions ←
          match truthy_dict final_actions_dict with
          | Some d =>
              try_except
                (emit (MkFinalActions d);;
                 a ← lift_result (pb_FinalActions d); ret (Some a))
                (fun e =>
                   print ("Could not create pb.FinalActions from final_actions_dict: "
                          +:+ exn_str e +:+ ". Passing None.");;
                   ret None)
          | None => ret None
          end;
        let validator_instance_params :=
          {| arg_data := df;
             arg_tbl_name := actual_table_name;
             arg_label := actual_validator_label;
             arg_thresholds := pb_thresholds;
             arg_actions := pb_actions;
             arg_final_actions := pb_final_actions;
             arg_brief := brief;
             arg_lang := truthy_str lang;
             arg_locale := truthy_str locale |} in
        emit MkValidate;;
        validator_instance ← lift_result (pb_Validate validator_instance_params);
        set_validator effective_validator_id validator_instance;;
        ret (mkValidatorInfo effective_validator_id)
  end.

(** ** [add_validation_step] *)

(** The table is built from bound methods of the validator the call looked
    up; building it calls none of them.  [actions_config] is accepted and
    ignored ([pass]). *)
Definition add_validation_step
    (validator_id validation_type : string) (params : kwargs)
    (actions_config : option kwargs)
  : M ValidationStepInfo.t :=
  c ← get_ctx;
  match active_validators c !! validator_id with
  | None =>
      raise (mkExn ValueError
        ("Validator ID '" +:+ validator_id +:+
         "' not found. Please create it first using 'create_validator'."))
  | Some validator =>
      match dict_get supported_validations validation_type with
      | None =>
          raise (mkExn ValueError
            ("Unsupported validation_type: '" +:+ validation_type +:+
             "'. Supported types include: " +:+ repr_str_list supported_keys))
      | Some validation_method =>
          let current_params := params in
          try_except
            (emit (CallMethod validator_id validation_method current_params);;
             mutating_call validator_id
               (call_method validation_method current_params))
            (fun e =>
               if is_TypeError e then
                 raise (mkExn ValueError
                   ("Error calling validation method '" +:+ validation_type
                    +:+ "' with params " +:+ repr_kwargs current_params
                    +:+ ". Original error: " +:+ exn_str e
                    +:+ ". Check parameter names and types against Pointblank's API for the '"
                    +:+ validation_type +:+ "' method of the 'Validate' class."))
               else
                 raise (mkExn RuntimeError
                   ("An unexpected error occurred while adding validation step '"
                    +:+ validation_type +:+ "': " +:+ exn_str e)));;
          ret (ValidationStepInfo.mk validator_id
                 ("Validation step '" +:+ validation_type
                  +:+ "' added successfully."))
      end
  end.

(** ** [get_validation_step_output] *)

(** [x is None or x.empty] *)
Definition none_or_empty (x : option Extract) : M bool :=
  match x with
  | None => ret true
  | Some ex => lift_result (extract_empty ex)
  end.

Definition negative_index (step_index : option Z) : bool :=
  match step_index with
  | Some i => (i <? 0)%Z
  | None => false
  end.

(** The two pathways: the extract (set to [None] when empty) and the
    message that goes with it. *)
Definition retrieve (validator_id sundered_type : string)
    (step_index : option Z) : M (option Extract * string) :=
  match step_index with
  | Some i =>
      emit (CallGetDataExtracts validator_id i);;
      data_extract_df ←
        reading_call validator_id (fun v => get_data_extracts v i);
      nothing ← none_or_empty data_extract_df;
      if (nothing : bool) then
        ret (None, "No data extract available for step " +:+ pretty i +:+
                   ". This may mean all rows passed this validation step.")
      else
        ret (data_extract_df,
             "Data extract for step " +:+ pretty i +:+ " retrieved.")
  | None =>
      emit (CallGetSunderedData validator_id sundered_type);;
      data_extract_df ←
        reading_call validator_id (fun v => get_sundered_data v sundered_type);
      nothing ← none_or_empty data_extract_df;
      if (nothing : bool) then
        ret (None, "No sundered data available for type '" +:+ sundered_type
                   +:+ "'.")
      else
        ret (data_extract_df,
             "Sundered data for type '" +:+ sundered_type +:+ "' retrieved.")
  end.

Definition get_validation_step_output
    (validator_id output_path sundered_type : string) (step_index : option Z)
  : M ValidationOutput.t :=
  c ← get_ctx;
  match active_validators c !! validator_id with
  | None =>
      raise (mkExn ValueError
        ("Validator ID '" +:+ validator_id +:+ "' not found."))
  | Some validator =>
      if negb (String.eqb (lower (path_suffix output_path)) ".csv") then
        raise (mkExn ValueError
          ("Unsupported file format '" +:+ path_suffix output_path +:+
           "'. Please use '.csv'."))
      else if negative_index step_index then
        raise (mkExn ValueError "The 'step_index' cannot be a negative number.")
      else
        try_except
          ((if negb (time_processed validator) then
              ctx_warning ("Validator '" +:+ validator_id +:+
                           "' has not been interrogated. Interrogating now.")
            else ret tt);;
           parent_mkdir output_path;;
           '(data_extract_df, message) ←
             retrieve validator_id sundered_type step_index;
           match data_extract_df with
           | None => ret (ValidationOutput.mk "success" message None)
           | Some ex =>
               match extract_as_pandas ex with
               | Some frame =>
                   frame_to_csv frame output_path;;
                   let message :=
                     "Data extract saved to " +:+ path_resolve output_path in
                   ctx_report_progress 100 100 message;;
                   ret (ValidationOutput.mk "success" message
                          (Some (path_resolve output_path)))
               | None =>
                   raise (mkExn TypeError
                     ("Unsupported DataFrame type '" +:+ extract_type_name ex
                      +:+ "' for CSV export."))
               end
           end)
          (fun e =>
             raise (mkExn RuntimeError
               ("Error getting output for validator '" +:+ validator_id
                +:+ "': " +:+ exn_str e)))
  end.

(** ** [interrogate_validator] *)

(** [output_dict]: the key that is always there and the two that may be. *)
Record output_dict := mkOutput {
  validation_summary : Json;
  csv_report_saved_to : option string;
  report_save_error : option string;
}.

Definition interrogate_validator
    (validator_id : string) (report_file_path : option string)
  : M output_dict :=
  c ← get_ctx;
  match active_validators c !! validator_id with
  | None =>
      raise (mkExn ValueError
        ("Validator ID '" +:+ validator_id +:+ "' not found."))
  | Some validator =>
      json_report_str ←
        try_except
          (emit (CallInterrogate validator_id);;
           mutating_call validator_id interrogate;;
           emit (CallGetJsonReport validator_id);;
           reading_call validator_id get_json_report)
          (fun e =>
             raise (mkExn RuntimeError
               ("Error during validator interrogation: " +:+ exn_str e)));
      summary ← lift_result (json_loads json_report_str);
      match truthy_str report_file_path with
      | None => ret (mkOutput summary None None)
      | Some path =>
          if negb (endswith (lower path) ".csv") then
            let err_msg := "Unsupported report file extension. Use .csv." in
            print err_msg;;
            ret (mkOutput summary None (Some err_msg))
          else
            parent_mkdir path;;
            try_except
              (report_data ← lift_result (json_loads json_report_str);
               df_report ← lift_result (report_frame report_data);
               frame_to_csv df_report path;;
               let file_saved_path := path_resolve path in
               ctx_report_progress 100 100
                 ("Report saved to " +:+ file_saved_path);;
               ret (mkOutput summary (Some file_saved_path) None))
              (fun e =>
                 let error_msg :=
                   "Failed to save report to " +:+ path +:+ ": "
                   +:+ exn_str e in
                 print error_msg;;
                 ret (mkOutput summary None (Some error_msg)))
      end
  end.

End Server.

(** * Properties *)

(** The events a call added: what the trace holds beyond its old length. *)
Definition new_events `{Engine} (w w' : World) : list event :=
  drop (length (trace w)) (trace w').

Definition is_raised {A} (r : result A) : bool :=
  match r with
  | Raised _ => true
  | Returned _ => false
  end.

(** [needle in hay], for the messages that must mention something. *)
Fixpoint contains (needle hay : string) : bool :=
  String.prefix needle hay ||
  match hay with
  | EmptyString => false
  | String _ hay' => contains needle hay'
  end.

(** What a successful [add_validation_step] leaves behind: the validator
    as the engine method left it, one more event. *)
Definition step_added `{Engine} (w : World) (validator_id : string)
    (m : engine_method) (params : kwargs) (v' : Validate) : World :=
  mkWorld (mkAppContext (loaded_dataframes (app_ctx w))
             (<[validator_id := v']> (active_validators (app_ctx w))))
          (uuid_draws w)
          (trace w ++ [CallMethod validator_id m params]).

(** [x if x else default] *)
Definition or_else (x : option string) (default : string) : string :=
  match truthy_str x with
  | Some s => s
  | None => default
  end.

(** The id a creating call settles on: the caller's, or the generated one. *)
Definition effective_id `{Engine} (prefix : string) (id : option string)
    (w : World) : string :=
  or_else id (prefix +:+ uuid4_hex8 (uuid_draws w)).

(** What a tolerant [try] around an engine constructor leaves in the
    variable: the object built from a non-empty dict, otherwise [None]. *)
Definition accepted `{Engine} {T} (build : kwargs -> result T)
    (d : option kwargs) : option T :=
  match truthy_dict d with
  | Some d' =>
      match build d' with
      | Returned t => Some t
      | Raised _ => None
      end
  | None => None
  end.

(** A dict the constructor [build] rejects. *)
Definition malformed `{Engine} {T} (build : kwargs -> result T)
    (d : option kwargs) : Prop :=
  exists d' e, truthy_dict d = Some d' /\ build d' = Raised e.

(** The keyword arguments [create_validator] ends up passing to
    [pb.Validate] when no [raise] intervenes. *)
Definition validate_args `{Engine} (df_id : string) (df : DataFrame)
    (table_name validator_label : option string)
    (thresholds_dict actions_dict final_actions_dict : option kwargs)
    (brief : option bool) (lang locale : option string)
  : ValidateArgs DataFrame Thresholds Actions FinalActions :=
  {| arg_data := df;
     arg_tbl_name := or_else table_name ("table_for_" +:+ df_id);
     arg_label :=
       or_else validator_label
         ("Validation for " +:+ or_else table_name ("table_for_" +:+ df_id));
     arg_thresholds := accepted pb_Thresholds thresholds_dict;
     arg_actions := accepted pb_Actions actions_dict;
     arg_final_actions := accepted pb_FinalActions final_actions_dict;
     arg_brief := brief;
     arg_lang := truthy_str lang;
     arg_locale := truthy_str locale |}.

(** * A concrete engine

    One small instance of the collaborators, on which the tools can be run:
    tables are lists of integer rows, a validator records the steps it was
    given and whether it was interrogated, [col_vals_gt] is the one rule
    with failing rows, paths under [/readonly/] cannot be written, and the
    engine's constructors accept the keys [warning], [error], [critical]. *)
Module Demo.

Record validator := mkValidator {
  table : list (list Z);
  steps : list (engine_method * list (string * Z));
  processed : bool;
}.

(** The text from the last dot on, empty when there is no dot. *)
Fixpoint suffix (s : string) : string :=
  match s with
  | EmptyString => EmptyString
  | String c s' =>
      match suffix s' with
      | EmptyString => if Ascii.eqb c "." then s else EmptyString
      | found => found
      end
  end.

Definition known_key (kv : string * Z) : bool :=
  String.eqb (fst kv) "warning" || String.eqb (fst kv) "error"
  || String.eqb (fst kv) "critical".

Definition build (d : list (string * Z)) : result (list (string * Z)) :=
  if forallb known_key d then Returned d
  else Raised (mkExn TypeError "got an unexpected keyword argument").

Definition write (frame : list (list Z)) (path : string) : option PyExn :=
  if String.prefix "/readonly/" path
  then Some (mkExn OtherException "[Errno 13] Permission denied")
  else None.

Definition call (m : engine_method) (kw : list (string * Z)) (v : validator)
  : option PyExn * validator :=
  match kw with
  | [] => (Some (mkExn TypeError "missing 1 required positional argument"), v)
  | _ => (None, mkValidator (table v) (steps v ++ [(m, kw)]) (processed v))
  end.

Definition extracts (v : validator) (i : Z) : result (option (list (list Z))) :=
  match steps v !! Z.to_nat i with
  | Some (col_vals_gt, _) => Returned (Some (tail (table v)))
  | Some _ => Returned None
  | None => Raised (mkExn OtherException "no such step")
  end.

Definition sundered (v : validator) (type : string)
  : result (option (list (list Z))) :=
  if String.eqb type "pass" then Returned (Some (firstn 1 (table v)))
  else Returned (Some (tail (table v))).

#[local] Instance engine : Engine := {|
  DataFrame := list (list Z);
  Value := Z;
  Validate := validator;
  Thresholds := list (string * Z);
  Actions := list (string * Z);
  FinalActions := list (string * Z);
  Extract := list (list Z);
  Json := string;
  path_exists := fun p => String.eqb p "data.csv";
  path_suffix := suffix;
  path_resolve := fun p => "/srv/" +:+ p;
  mkdir_parents := fun _ => None;
  read_csv := fun _ => Returned [[1; 5]; [2; -3]; [3; 0]]%Z;
  read_excel := fun _ => Returned [];
  read_parquet := fun _ => Returned [];
  to_csv := write;
  frame_shape := fun f => (length f, length (hd [] f));
  frame_columns := fun _ => ["id"; "score"];
  uuid4_hex8 := fun n => "9f86d08" +:+ pretty (n mod 10)%nat;
  pb_Thresholds := build;
  pb_Actions := build;
  pb_FinalActions := build;
  pb_Validate := fun a => Returned (mkValidator (arg_data a) [] false);
  repr_kwargs := fun _ => "{...}";
  call_method := call;
  time_processed := processed;
  interrogate := fun v => (None, mkValidator (table v) (steps v) true);
  get_json_report := fun _ => Returned "[]";
  get_data_extracts := extracts;
  get_sundered_data := sundered;
  extract_empty := fun f => Returned (match f with [] => true | _ => false end);
  extract_as_pandas := fun f => Some f;
  extract_type_name := fun _ => "DataFrame";
  json_loads := fun s => Returned s;
  report_frame := fun _ => Returned [];
|}.

Definition empty_world : World := mkWorld (mkAppContext ∅ ∅) 0 [].

(** load [data.csv] as [df_x], create [v_y] on it. *)
Definition loaded : World :=
  snd (load_dataframe "data.csv" (Some "df_x") empty_world).

Definition created : World :=
  snd (create_validator "df_x" (Some "v_y") None None None None None
         None None None loaded).

Definition fresh_validator : validator :=
  mkValidator [[1; 5]; [2; -3]; [3; 0]]%Z [] false.

(** ... then add [col_vals_gt {"columns": ..., "value": 0}]. *)
Definition one_step : World :=
  snd (add_validation_step "v_y" "col_vals_gt" [("value", 0%Z)] None created).

Definition one_step_validator : validator :=
  mkValidator [[1; 5]; [2; -3]; [3; 0]]%Z
    [(col_vals_gt, [("value", 0%Z)])] false.

(** ... and [col_exists], a rule every row passes. *)
Definition two_steps : World :=
  snd (add_validation_step "v_y" "col_exists" [("columns", 1%Z)] None one_step).

Definition two_steps_validator : validator :=
  mkValidator [[1; 5]; [2; -3]; [3; 0]]%Z
    [(col_vals_gt, [("value", 0%Z)]); (col_exists, [("columns", 1%Z)])] false.


End Demo.

(** The registries once [validator_id] holds [v']: a method call on the
    validator object shows through its registry entry. *)
Definition with_validator `{Engine} (w : World) (validator_id : string)
    (v' : Validate) : AppContext :=
  mkAppContext (loaded_dataframes (app_ctx w))
    (<[validator_id := v']> (active_validators (app_ctx w))).

(** The warning [get_validation_step_output] sends for a validator that
    was not interrogated, as a list of events: empty when it was. *)
Definition interrogation_warning `{Engine} (validator_id : string)
    (v : Validate) : list event :=
  if time_processed v then []
  else [CtxWarning ("Validator '" +:+ validator_id +:+
                    "' has not been interrogated. Interrogating now.")].

(** The engine call of the pathway [step_index] selects, and its event. *)
Definition pathway_answer `{Engine} (v : Validate) (sundered_type : string)
    (step_index : option Z) : result (option Extract) :=
  match step_index with
  | Some i => get_data_extracts v i
  | None => get_sundered_data v sundered_type
  end.

Definition pathway_event `{Engine} (validator_id sundered_type : string)
    (step_index : option Z) : event :=
  match step_index with
  | Some i => CallGetDataExtracts validator_id i
  | None => CallGetSunderedData validator_id sundered_type
  end.

(** ** [app_lifespan] *)

(** [context = AppContext()]: both registries start empty. *)
Definition app_lifespan_enter `{Engine} : AppContext := mkAppContext ∅ ∅.

(** After the [yield]: [loaded_dataframes.clear()] and
    [active_validators.clear()] on the context that was handed out. *)
Definition app_lifespan_exit `{Engine} (context : AppContext) : AppContext :=
  mkAppContext ∅ ∅.


(** * A second engine, where things go wrong

    The same tables and validators as [Demo], with other collaborators:
    every path exists unless it starts with [missing], directories under
    [/proc/] cannot be made, a validator over an empty table cannot be
    interrogated, a report can be rendered only when there are steps and
    parses only when there is exactly one, and extracts are not pandas
    frames. *)
Module Faulty.

Definition denied : PyExn := mkExn OtherException "[Errno 13] Permission denied".
Definition no_rows : PyExn := mkExn OtherException "the table has no rows".
Definition no_steps : PyExn := mkExn OtherException "nothing to report".
Definition bad_json : PyExn := mkExn OtherException "Expecting value".

Definition make_dirs (path : string) : option PyExn :=
  if String.prefix "/proc/" path then Some denied else None.

Definition run (v : Demo.validator) : option PyExn * Demo.validator :=
  match Demo.table v with
  | [] => (Some no_rows, v)
  | _ => (None, Demo.mkValidator (Demo.table v) (Demo.steps v) true)
  end.

Definition report (v : Demo.validator) : result string :=
  match Demo.steps v with
  | [] => Raised no_steps
  | [_] => Returned "[]"
  | _ => Returned "[NaN"
  end.

Definition parse (s : string) : result string :=
  if String.eqb s "[]" then Returned s else Raised bad_json.

#[local] Instance engine : Engine := {|
  DataFrame := list (list Z);
  Value := Z;
  Validate := Demo.validator;
  Thresholds := list (string * Z);
  Actions := list (string * Z);
  FinalActions := list (string * Z);
  Extract := list (list Z);
  Json := string;
  path_exists := fun p => negb (String.prefix "missing" p);
  path_suffix := Demo.suffix;
  path_resolve := fun p => "/srv/" +:+ p;
  mkdir_parents := make_dirs;
  read_csv := fun _ => Returned [[1; 5]; [2; -3]; [3; 0]]%Z;
  read_excel := fun _ => Returned [[7; 7]]%Z;
  read_parquet := fun _ => Returned [];
  to_csv := Demo.write;
  frame_shape := fun f => (length f, length (hd [] f));
  frame_columns := fun _ => ["id"; "score"];
  uuid4_hex8 := fun n => "9f86d08" +:+ pretty (n mod 10)%nat;
  pb_Thresholds := Demo.build;
  pb_Actions := Demo.build;
  pb_FinalActions := Demo.build;
  pb_Validate := fun a => Returned (Demo.mkValidator (arg_data a) [] false);
  repr_kwargs := fun _ => "{...}";
  call_method := Demo.call;
  time_processed := Demo.processed;
  interrogate := run;
  get_json_report := report;
  get_data_extracts := Demo.extracts;
  get_sundered_data := Demo.sundered;
  extract_empty := fun f => Returned (match f with [] => true | _ => false end);
  extract_as_pandas := fun _ => None;
  extract_type_name := fun _ => "LazyFrame";
  json_loads := parse;
  report_frame := fun _ => Returned [];
|}.

(** A session holding one table and one validator. *)
Definition session (rows : list (list Z)) (v : Demo.validator) : World :=
  mkWorld (mkAppContext {[ "df_x" := rows ]} {[ "v_y" := v ]}) 0 [].

Definition rows : list (list Z) := [[1; 5]; [2; -3]; [3; 0]]%Z.

Definition no_step : Demo.validator := Demo.mkValidator rows [] false.

Definition one_step : Demo.validator :=
  Demo.mkValidator rows [(col_vals_gt, [("value", 0%Z)])] false.

Definition two_steps : Demo.validator :=
  Demo.mkValidator rows
    [(col_vals_gt, [("value", 0%Z)]); (col_exists, [("columns", 1%Z)])] false.

Definition over_nothing : Demo.validator :=
  Demo.mkValidator [] [(col_vals_gt, [("value", 0%Z)])] false.

Definition single_row : Demo.validator :=
  Demo.mkValidator [[1; 5]]%Z [(col_vals_gt, [("value", 0%Z)])] true.

End Faulty.


Section Laws.
Context `{Eng : Engine}.

(** Unfolds the monad and the collaborator calls down to matches on what
    the collaborators answer. *)
Ltac unfold_monad :=
  unfold parent_mkdir, frame_to_csv, ctx_warning,
    ctx_report_progress, print, mutating_call, reading_call, set_validator,
    the_validator, uuid4_hex, none_or_empty;
  unfold mbind, M_bind, mret, M_ret, bind, ret, raise, try_except, emit,
    get_ctx, put_ctx, lift_result, lift_unit;
  cbn [app_ctx trace uuid_draws active_validators loaded_dataframes fst snd].

(** Splits on what a collaborator answers: the innermost scrutinee. *)
Ltac split_answers :=
  repeat match goal with
  | |- context [match ?x with _ => _ end] =>
      lazymatch x with
      | context [match _ with _ => _ end] => fail
      | _ => destruct x eqn:?
      end; cbn
  end.

Lemma new_events_nil (w : World) : new_events w w = [].
Proof. unfold new_events. apply drop_all. Qed.

Lemma new_events_app (w : World) c n evs :
  new_events w (mkWorld c n (trace w ++ evs)) = evs.
Proof. unfold new_events. cbn. apply drop_app_length. Qed.

(** Reads the events a call added off the final world. *)
Ltac read_events :=
  cbn [snd fst]; rewrite <- ?app_assoc;
  first [rewrite new_events_nil | rewrite new_events_app]; cbn [app].

Lemma dict_get_None {A} (d : list (string * A)) k :
  ~ In k (map fst d) -> dict_get d k = None.
Proof.
  induction d as [|[k' a] d IH]; cbn; [reflexivity|].
  intros Hnot. destruct (String.eqb_spec k k') as [->|Hne].
  - exfalso. apply Hnot. now left.
  - apply IH. intros Hin. apply Hnot. now right.
Qed.

Lemma append_assoc (a b c : string) : (a +:+ b) +:+ c = a +:+ b +:+ c.
Proof.
  induction a as [|x a IH]; [reflexivity|].
  change (String x ((a +:+ b) +:+ c) = String x (a +:+ b +:+ c)).
  now rewrite IH.
Qed.

Lemma prefix_split needle hay :
  String.prefix needle hay = true -> exists post, hay = needle +:+ post.
Proof.
  revert hay. induction needle as [|a needle IH]; intros hay Hp.
  - exists hay. reflexivity.
  - destruct hay as [|b hay]; [discriminate|]. cbn in Hp.
    destruct (Ascii.ascii_dec a b) as [->|]; [|discriminate].
    destruct (IH hay Hp) as [post ->]. exists post. reflexivity.
Qed.

Lemma contains_spec needle hay :
  contains needle hay = true ->
  exists pre post, hay = pre +:+ needle +:+ post.
Proof.
  induction hay as [|c hay IH]; cbn [contains].
  - rewrite orb_false_r. intros Hp.
    destruct (prefix_split _ _ Hp) as [post Hpost]. now exists "", post.
  - intros H. apply orb_true_iff in H as [Hp|Hc].
    + destruct (prefix_split _ _ Hp) as [post Hpost]. now exists "", post.
    + destruct (IH Hc) as (pre & post & ->).
      exists (String c pre), post. reflexivity.
Qed.

(** ** The dispatcher *)

Lemma supported_keys_enumerated :
  forallb (fun k => contains ("'" +:+ k +:+ "'") (repr_str_list supported_keys))
          supported_keys = true.
Proof. vm_compute. reflexivity. Qed.

(** C5.  A [validation_type] outside the dispatch table, on an existing
    validator: [add_validation_step] raises a [ValueError] whose message
    quotes every supported type name, and the world is left exactly as it
    was: the trace has no new event (no engine method was called) and the
    registry is unchanged (the validator has the steps it had). *)
Theorem C5_unsupported_type_rejected
    (w : World) (validator_id validation_type : string) (v : Validate)
    (params : kwargs) (actions_config : option kwargs) :
  active_validators (app_ctx w) !! validator_id = Some v ->
  ~ In validation_type supported_keys ->
  exists msg,
    add_validation_step validator_id validation_type params actions_config w
      = (Raised (mkExn ValueError msg), w)
    /\ msg = "Unsupported validation_type: '" +:+ validation_type +:+
             "'. Supported types include: " +:+ repr_str_list supported_keys
    /\ forall k, In k supported_keys ->
         exists pre post, msg = pre +:+ ("'" +:+ k +:+ "'") +:+ post.
Proof.
  intros Hv Hnot. eexists. split; [|split; [reflexivity|]].
  - unfold add_validation_step. unfold_monad. rewrite Hv.
    rewrite (dict_get_None _ _ Hnot). reflexivity.
  - intros k Hk.
    pose proof supported_keys_enumerated as Hall.
    rewrite forallb_forall in Hall. specialize (Hall k Hk).
    destruct (contains_spec _ _ Hall) as (pre & post & Hsplit).
    exists ("Unsupported validation_type: '" +:+ validation_type +:+
            "'. Supported types include: " +:+ pre), post.
    rewrite Hsplit.
    now rewrite !append_assoc.
Qed.

(** ** The extractor *)

(** C7.  A negative [step_index], on an existing validator and with a
    [.csv] destination: [get_validation_step_output] raises the
    [ValueError] for a negative index and leaves the world as it was, so
    the trace holds no evidence retrieval and no file write. *)
Theorem C7_negative_index_rejected
    (w : World) (validator_id output_path sundered_type : string)
    (v : Validate) (i : Z) :
  active_validators (app_ctx w) !! validator_id = Some v ->
  lower (path_suffix output_path) = ".csv" ->
  (i < 0)%Z ->
  get_validation_step_output validator_id output_path sundered_type (Some i) w
    = (Raised (mkExn ValueError "The 'step_index' cannot be a negative number."),
       w).
Proof.
  intros Hv Hcsv Hneg.
  unfold get_validation_step_output. unfold_monad.
  rewrite Hv, Hcsv. cbn.
  apply Z.ltb_lt in Hneg. rewrite Hneg. reflexivity.
Qed.

(** C1.  Extraction from a validator that has not been interrogated emits
    the warning that announces an interrogation, and then does not
    interrogate: no later event of the call is an interrogation, and the
    registry (hence the validator, still not interrogated) is unchanged. *)
Theorem C1_extract_warns_without_interrogating
    (w : World) (validator_id output_path sundered_type : string)
    (step_index : option Z) (v : Validate) :
  active_validators (app_ctx w) !! validator_id = Some v ->
  time_processed v = false ->
  lower (path_suffix output_path) = ".csv" ->
  negative_index step_index = false ->
  let w' := snd (get_validation_step_output validator_id output_path
                   sundered_type step_index w) in
  (exists rest,
      new_events w w' =
        CtxWarning ("Validator '" +:+ validator_id +:+
                    "' has not been interrogated. Interrogating now.") :: rest
      /\ Forall (fun ev => forall id, ev <> CallInterrogate id) rest)
  /\ app_ctx w' = app_ctx w.
Proof.
  intros Hv Hnot Hcsv Hidx.
  unfold get_validation_step_output, retrieve. unfold_monad.
  rewrite Hv, Hcsv, Hidx, Hnot. cbn.
  destruct step_index as [i|]; cbn.
  all: split_answers.
  all: split; [|reflexivity]; read_events.
  all: eexists; split; [reflexivity|].
  all: repeat constructor; intros id; discriminate.
Qed.

(** C6.  With a [step_index] given, [sundered_type] is dead: any two values
    of it give the same outcome and the same world, and no event of the
    call asks for sundered data.  On an existing validator, with a [.csv]
    destination, a non-negative index and the parent directory in place,
    the call asks the engine for the extract of that very step, and what
    it returns is decided by that extract: a non-empty pandas frame is the
    frame written to the destination, no frame or an empty one gives the
    no-extract message for that step, and a failure of the query is the
    error raised. *)
Theorem C6_step_index_wins
    (w : World) (validator_id output_path sundered_type : string)
    (v : Validate) (i : Z) :
  active_validators (app_ctx w) !! validator_id = Some v ->
  let run := get_validation_step_output validator_id output_path
               sundered_type (Some i) w in
  (forall other_type,
      get_validation_step_output validator_id output_path other_type
        (Some i) w = run)
  /\ Forall (fun ev => forall id type, ev <> CallGetSunderedData id type)
       (new_events w (snd run))
  /\ (lower (path_suffix output_path) = ".csv" -> (0 <= i)%Z ->
      mkdir_parents output_path = None ->
      In (CallGetDataExtracts validator_id i) (new_events w (snd run)))
  /\ (lower (path_suffix output_path) = ".csv" -> (0 <= i)%Z ->
      mkdir_parents output_path = None ->
      (forall ex frame,
          get_data_extracts v i = Returned (Some ex) ->
          extract_empty ex = Returned false ->
          extract_as_pandas ex = Some frame ->
          to_csv frame output_path = None ->
          run = (Returned (ValidationOutput.mk "success"
                   ("Data extract saved to " +:+ path_resolve output_path)
                   (Some (path_resolve output_path))),
                 mkWorld (app_ctx w) (uuid_draws w)
                   (trace w ++ interrogation_warning validator_id v ++
                    [Mkdir output_path;
                     CallGetDataExtracts validator_id i;
                     ToCsv frame output_path;
                     CtxProgress 100 100
                       ("Data extract saved to "
                        +:+ path_resolve output_path)])%list))
      /\ (get_data_extracts v i = Returned None
          \/ (exists ex, get_data_extracts v i = Returned (Some ex)
                         /\ extract_empty ex = Returned true) ->
          run = (Returned (ValidationOutput.mk "success"
                   ("No data extract available for step " +:+ pretty i +:+
                    ". This may mean all rows passed this validation step.")
                   None),
                 mkWorld (app_ctx w) (uuid_draws w)
                   (trace w ++ interrogation_warning validator_id v ++
                    [Mkdir output_path;
                     CallGetDataExtracts validator_id i])%list))
      /\ (forall e,
            get_data_extracts v i = Raised e ->
            run = (Raised (mkExn RuntimeError
                     ("Error getting output for validator '"
                      +:+ validator_id +:+ "': " +:+ exn_str e)),
                   mkWorld (app_ctx w) (uuid_draws w)
                     (trace w ++ interrogation_warning validator_id v ++
                      [Mkdir output_path;
                       CallGetDataExtracts validator_id i])%list))).
Proof.
  intros Hv run. subst run. split; [reflexivity|].
  unfold get_validation_step_output, retrieve, interrogation_warning.
  unfold_monad.
  rewrite Hv. split; [|split].
  - split_answers.
    all: read_events.
    all: repeat constructor; intros id type; discriminate.
  - intros Hcsv Hi Hmk. apply Z.ltb_ge in Hi.
    rewrite Hcsv. cbn. rewrite Hi, Hmk. cbn.
    split_answers.
    all: read_events.
    all: cbn; tauto.
  - intros Hcsv Hi Hmk. apply Z.ltb_ge in Hi.
    rewrite Hcsv. cbn. rewrite Hi. split; [|split].
    + intros ex frame Hex Hempty Hpandas Hwrite.
      destruct (time_processed v); cbn.
      all: repeat (rewrite ?Hv, ?Hmk, ?Hex, ?Hempty, ?Hpandas, ?Hwrite; cbn).
      all: rewrite <- ?app_assoc; reflexivity.
    + intros [Hex|(ex & Hex & Hempty)].
      all: destruct (time_processed v); cbn.
      all: repeat (rewrite ?Hv, ?Hmk, ?Hex, ?Hempty; cbn).
      all: rewrite <- ?app_assoc; reflexivity.
    + intros e Hex.
      destruct (time_processed v); cbn.
      all: repeat (rewrite ?Hv, ?Hmk, ?Hex; cbn).
      all: rewrite <- ?app_assoc; reflexivity.
Qed.

(** C8.  Step-index mode, on an existing validator with a [.csv]
    destination, a non-negative index and the parent directory in place:
    when the engine has no extract for the step ([None]) or an empty one,
    the call returns status [success], the explanatory message and no
    output file; beyond the optional warning it only creates the directory
    and asks for the extract, so nothing is written. *)
Theorem C8_empty_evidence_is_success
    (w : World) (validator_id output_path sundered_type : string)
    (v : Validate) (i : Z) :
  active_validators (app_ctx w) !! validator_id = Some v ->
  lower (path_suffix output_path) = ".csv" ->
  (0 <= i)%Z ->
  mkdir_parents output_path = None ->
  (get_data_extracts v i = Returned None
   \/ exists ex, get_data_extracts v i = Returned (Some ex)
                /\ extract_empty ex = Returned true) ->
  let run := get_validation_step_output validator_id output_path
               sundered_type (Some i) w in
  fst run = Returned (ValidationOutput.mk "success"
      ("No data extract available for step " +:+ pretty i +:+
       ". This may mean all rows passed this validation step.") None)
  /\ new_events w (snd run) =
       ((if time_processed v then []
         else [CtxWarning ("Validator '" +:+ validator_id +:+
                           "' has not been interrogated. Interrogating now.")])
        ++ [Mkdir output_path; CallGetDataExtracts validator_id i])%list
  /\ app_ctx (snd run) = app_ctx w.
Proof.
  intros Hv Hcsv Hi Hmk Hex run. subst run.
  apply Z.ltb_ge in Hi.
  unfold get_validation_step_output, retrieve. unfold_monad.
  rewrite Hv, Hcsv. cbn. rewrite Hi.
  destruct Hex as [Hex|(ex & Hex & Hempty)].
  all: destruct (time_processed v); cbn.
  all: repeat (rewrite ?Hmk, ?Hv, ?Hex, ?Hempty; cbn).
  all: split; [reflexivity|split; [|reflexivity]].
  all: read_events; reflexivity.
Qed.


(** C3 (as the code has it).  A destination whose suffix is not [.csv]
    makes [get_validation_step_output] raise at once, the world untouched.
    [interrogate_validator], given a non-empty report path that does not
    end in [.csv], does not look at the path first: its first event is the
    interrogation, no directory is made and nothing is written, and a
    report that could be computed is returned with [report_save_error]. *)
Theorem C3_extension_checked_first_by_extract_only
    (w : World) (validator_id destination sundered_type : string)
    (step_index : option Z) (v : Validate) :
  active_validators (app_ctx w) !! validator_id = Some v ->
  (lower (path_suffix destination) <> ".csv" ->
   get_validation_step_output validator_id destination sundered_type
     step_index w
   = (Raised (mkExn ValueError
        ("Unsupported file format '" +:+ path_suffix destination +:+
         "'. Please use '.csv'.")), w))
  /\ (destination <> "" -> endswith (lower destination) ".csv" = false ->
      let run := interrogate_validator validator_id (Some destination) w in
      (exists rest,
          new_events w (snd run) = CallInterrogate validator_id :: rest
          /\ Forall (fun ev => (forall p, ev <> Mkdir p)
                              /\ (forall f p, ev <> ToCsv f p)) rest)
      /\ (forall v' report summary,
             interrogate v = (None, v') ->
             get_json_report v' = Returned report ->
             json_loads report = Returned summary ->
             fst run = Returned (mkOutput summary None
                         (Some "Unsupported report file extension. Use .csv."))
             /\ new_events w (snd run) =
                  [CallInterrogate validator_id;
                   CallGetJsonReport validator_id;
                   Print "Unsupported report file extension. Use .csv."])).
Proof.
  intros Hv. split.
  - intros Hsuf.
    unfold get_validation_step_output. unfold_monad. rewrite Hv.
    destruct (String.eqb_spec (lower (path_suffix destination)) ".csv");
      [contradiction|reflexivity].
  - intros Hne Hend run. subst run.
    assert (Htruthy : truthy_str (Some destination) = Some destination)
      by (destruct destination; [contradiction|reflexivity]).
    unfold interrogate_validator. unfold_monad.
    rewrite Hv, Htruthy, Hend. cbn. rewrite Hv. split.
    + destruct (interrogate v) as [[e|] v']; cbn.
      all: rewrite ?lookup_insert_eq; cbn.
      all: split_answers.
      all: read_events.
      all: eexists; split; [reflexivity|].
      all: repeat constructor; intros; discriminate.
    + intros v' report summary Hint Hrep Hsum.
      rewrite Hint. cbn. rewrite lookup_insert_eq. cbn.
      rewrite Hrep. cbn. rewrite Hsum. cbn.
      split; [reflexivity|]. read_events. reflexivity.
Qed.

(** ** Persistence failures *)


(** ** Adding steps *)

Lemma add_validation_step_accepted
    (w : World) (validator_id validation_type : string) (params : kwargs)
    (actions_config : option kwargs) (v v' : Validate) (m : engine_method) :
  active_validators (app_ctx w) !! validator_id = Some v ->
  dict_get supported_validations validation_type = Some m ->
  call_method m params v = (None, v') ->
  add_validation_step validator_id validation_type params actions_config w
  = (Returned (ValidationStepInfo.mk validator_id
       ("Validation step '" +:+ validation_type +:+ "' added successfully.")),
     step_added w validator_id m params v').
Proof.
  intros Hv Hm Hcall.
  unfold add_validation_step. unfold_monad.
  rewrite Hv, Hm. cbn. rewrite Hv, Hcall. reflexivity.
Qed.

(** C2 (as the code has it).  A successful [add_validation_step] returns
    the validator id it was given and a status string that names the
    validation type, and nothing else: no step index.  The call succeeded
    because the type is in the table and the selected engine method
    accepted the parameters; that method was called once, on the validator
    as it stood, and the registry holds the validator it left. *)
Theorem C2_add_step_returns_id_and_status
    (w w' : World) (validator_id validation_type : string) (params : kwargs)
    (actions_config : option kwargs) (r : ValidationStepInfo.t) :
  add_validation_step validator_id validation_type params actions_config w
    = (Returned r, w') ->
  r = ValidationStepInfo.mk validator_id
        ("Validation step '" +:+ validation_type +:+ "' added successfully.")
  /\ exists m v v',
       dict_get supported_validations validation_type = Some m
       /\ active_validators (app_ctx w) !! validator_id = Some v
       /\ call_method m params v = (None, v')
       /\ w' = step_added w validator_id m params v'.
Proof.
  unfold add_validation_step. unfold_monad.
  destruct (active_validators (app_ctx w) !! validator_id) as [v|] eqn:Hv;
    [|discriminate].
  destruct (dict_get supported_validations validation_type) as [m|] eqn:Hm;
    [|discriminate].
  cbn. rewrite Hv.
  destruct (call_method m params v) as [[e|] v'] eqn:Hcall; cbn.
  - destruct (is_TypeError e); discriminate.
  - intros [= <- <-]. split; [reflexivity|].
    exists m, v, v'. repeat split; assumption.
Qed.

(** ** The registries *)

Lemma load_dataframe_failure_keeps_registries
    (w : World) (input_path : string) (df_id : option string) :
  is_raised (fst (load_dataframe input_path df_id w)) = true ->
  app_ctx (snd (load_dataframe input_path df_id w)) = app_ctx w.
Proof.
  unfold load_dataframe, _load_dataframe_from_path. unfold_monad.
  split_answers; cbn; intros; try reflexivity; discriminate.
Qed.

Lemma create_validator_failure_keeps_registries
    (w : World) (df_id : string)
    (validator_id table_name validator_label : option string)
    (thresholds_dict actions_dict final_actions_dict : option kwargs)
    (brief : option bool) (lang locale : option string) :
  let run := create_validator df_id validator_id table_name validator_label
               thresholds_dict actions_dict final_actions_dict brief lang
               locale w in
  is_raised (fst run) = true -> app_ctx (snd run) = app_ctx w.
Proof.
  intros run. subst run.
  unfold create_validator. unfold_monad.
  split_answers; cbn; intros; try reflexivity; discriminate.
Qed.

(** C9.  A [load_dataframe] or [create_validator] call that raises, for
    whatever reason, leaves both registries exactly as they were. *)
Theorem C9_failed_call_keeps_registries
    (w : World) (input_path : string) (new_df_id : option string)
    (df_id : string)
    (validator_id table_name validator_label : option string)
    (thresholds_dict actions_dict final_actions_dict : option kwargs)
    (brief : option bool) (lang locale : option string) :
  let loading := load_dataframe input_path new_df_id w in
  let creating := create_validator df_id validator_id table_name
                    validator_label thresholds_dict actions_dict
                    final_actions_dict brief lang locale w in
  (is_raised (fst loading) = true -> app_ctx (snd loading) = app_ctx w)
  /\ (is_raised (fst creating) = true -> app_ctx (snd creating) = app_ctx w).
Proof.
  split.
  - apply load_dataframe_failure_keeps_registries.
  - apply create_validator_failure_keeps_registries.
Qed.

Lemma malformed_not_accepted {T} (build : kwargs -> result T)
    (d : option kwargs) :
  malformed build d -> accepted build d = None.
Proof.
  intros (d' & e & Hd & Hbuild). unfold accepted. now rewrite Hd, Hbuild.
Qed.

(** C10.  With a malformed [actions_dict] or [final_actions_dict], on a
    loaded table and a free validator id: if the thresholds are not
    rejected and [pb.Validate] accepts the arguments, [create_validator]
    returns the id and registers the validator, and the arguments carry no
    [actions] (no [final_actions]) where the dict was rejected.  A rejected
    [thresholds_dict] instead raises a [ValueError] and registers nothing. *)
Theorem C10_rejected_actions_become_none
    (w : World) (df_id : string) (df : DataFrame)
    (validator_id table_name validator_label : option string)
    (thresholds_dict actions_dict final_actions_dict : option kwargs)
    (brief : option bool) (lang locale : option string) :
  let id := effective_id "validator_" validator_id w in
  let args := validate_args df_id df table_name validator_label
                thresholds_dict actions_dict final_actions_dict brief lang
                locale in
  let run := create_validator df_id validator_id table_name validator_label
               thresholds_dict actions_dict final_actions_dict brief lang
               locale w in
  loaded_dataframes (app_ctx w) !! df_id = Some df ->
  active_validators (app_ctx w) !! id = None ->
  malformed pb_Actions actions_dict
  \/ malformed pb_FinalActions final_actions_dict ->
  (forall validator,
      (forall d, truthy_dict thresholds_dict = Some d ->
                 is_raised (pb_Thresholds d) = false) ->
      pb_Validate args = Returned validator ->
      fst run = Returned (mkValidatorInfo id)
      /\ app_ctx (snd run)
         = mkAppContext (loaded_dataframes (app_ctx w))
             (<[id := validator]> (active_validators (app_ctx w)))
      /\ (malformed pb_Actions actions_dict -> arg_actions args = None)
      /\ (malformed pb_FinalActions final_actions_dict ->
          arg_final_actions args = None))
  /\ (forall d e,
        truthy_dict thresholds_dict = Some d ->
        pb_Thresholds d = Raised e ->
        fst run = Raised (mkExn ValueError
          ("Error creating pb.Thresholds from thresholds_dict: "
           +:+ exn_str e))
        /\ app_ctx (snd run) = app_ctx w).
Proof.
  intros id args run Hdf Hfree _. subst run. split.
  - intros validator Hth Hval.
    split; [|split; [|split]];
      [| |apply malformed_not_accepted|apply malformed_not_accepted].
    all: revert Hval Hfree; subst args id.
    all: unfold create_validator, validate_args, effective_id, or_else,
           accepted.
    all: unfold_monad; rewrite Hdf.
    all: destruct (truthy_str validator_id) as [given|]; cbn.
    all: intros Hval Hfree.
    all: destruct (decide _) as [[? Hsome]|_]; [congruence|].
    all: destruct (truthy_dict thresholds_dict) as [d|] eqn:Htd; cbn.
    all: try (specialize (Hth d eq_refl);
              destruct (pb_Thresholds d); [|discriminate]; cbn).
    all: destruct (truthy_dict actions_dict) as [da|]; cbn;
           [destruct (pb_Actions da); cbn|].
    all: destruct (truthy_dict final_actions_dict) as [dfa|]; cbn;
           [destruct (pb_FinalActions dfa); cbn|].
    all: rewrite Hval; reflexivity.
  - intros d e Htd Hraise. revert Hfree. subst id.
    unfold create_validator, effective_id, or_else.
    unfold_monad; rewrite Hdf.
    destruct (truthy_str validator_id) as [given|]; cbn.
    all: intros Hfree.
    all: destruct (decide _) as [[? Hsome]|_]; [congruence|].
    all: rewrite Htd; cbn; rewrite Hraise; cbn.
    all: split; reflexivity.
Qed.

(** ** More on [load_dataframe] *)

(** X1.  A path that does not exist: [FileNotFoundError], nothing read, no
    id drawn, the world as it was. *)
Theorem X1_load_missing_file
    (w : World) (input_path : string) (df_id : option string) :
  path_exists input_path = false ->
  load_dataframe input_path df_id w
  = (Raised (mkExn FileNotFoundError
       ("Input file '" +:+ input_path +:+ "' not found.")), w).
Proof.
  intros Hmissing.
  unfold load_dataframe, _load_dataframe_from_path. unfold_monad.
  rewrite Hmissing. reflexivity.
Qed.

(** X2.  An existing file whose lower-cased suffix is none of [.csv],
    [.xls], [.xlsx], [.parquet]: [ValueError] quoting the suffix as
    written, nothing read, the world as it was. *)
Theorem X2_load_unsupported_suffix
    (w : World) (input_path : string) (df_id : option string) :
  path_exists input_path = true ->
  ~ In (lower (path_suffix input_path)) [".csv"; ".xls"; ".xlsx"; ".parquet"] ->
  load_dataframe input_path df_id w
  = (Raised (mkExn ValueError
       ("Unsupported file type: " +:+ path_suffix input_path +:+
        ". Please use CSV or Excel.")), w).
Proof.
  intros Hexists Hnot.
  unfold load_dataframe, _load_dataframe_from_path. unfold_monad.
  rewrite Hexists. cbn [negb].
  assert (Hne : forall s, In s [".csv"; ".xls"; ".xlsx"; ".parquet"] ->
                String.eqb (lower (path_suffix input_path)) s = false).
  { intros s Hs. destruct (String.eqb_spec (lower (path_suffix input_path)) s)
      as [Heq|_]; [|reflexivity].
    exfalso. apply Hnot. now rewrite Heq. }
  rewrite !Hne by (cbn; tauto). reflexivity.
Qed.

(** X3.  The reader is chosen by the lower-cased suffix.  When it returns
    a frame and the id the call settles on is free, the call returns that
    id with the frame's shape and columns, the registry gains exactly that
    entry, one read is traced, and a uuid is drawn only when no id was
    given. *)
Theorem X3_load_registers_frame
    (w : World) (input_path : string) (df_id : option string)
    (df : DataFrame) :
  let id := effective_id "df_" df_id w in
  path_exists input_path = true ->
  (lower (path_suffix input_path) = ".csv"
   /\ read_csv input_path = Returned df)
  \/ ((lower (path_suffix input_path) = ".xls"
       \/ lower (path_suffix input_path) = ".xlsx")
      /\ read_excel input_path = Returned df)
  \/ (lower (path_suffix input_path) = ".parquet"
      /\ read_parquet input_path = Returned df) ->
  loaded_dataframes (app_ctx w) !! id = None ->
  load_dataframe input_path df_id w
  = (Returned (mkDataFrameInfo id (frame_shape df) (frame_columns df)),
     mkWorld (mkAppContext (<[id := df]> (loaded_dataframes (app_ctx w)))
                           (active_validators (app_ctx w)))
             (match truthy_str df_id with
              | Some _ => uuid_draws w
              | None => S (uuid_draws w)
              end)
             (trace w ++ [ReadTable input_path])).
Proof.
  intros id Hexists Hread Hfree. subst id. revert Hfree.
  unfold load_dataframe, _load_dataframe_from_path, effective_id, or_else.
  unfold_monad. rewrite Hexists. cbn [negb].
  destruct Hread as [[Hs Hr]|[[[Hs|Hs] Hr]|[Hs Hr]]]; rewrite Hs; cbn;
    rewrite Hr; cbn.
  all: destruct (truthy_str df_id) as [given|]; cbn; intros Hfree.
  all: destruct (decide _) as [[? Hsome]|_]; [congruence|reflexivity].
Qed.

(** X4.  Whatever a [load_dataframe] call does, it leaves the validators
    alone and never replaces a table that was already registered. *)
Theorem X4_load_never_overwrites
    (w : World) (input_path : string) (df_id : option string)
    (k : string) (df : DataFrame) :
  let w' := snd (load_dataframe input_path df_id w) in
  active_validators (app_ctx w') = active_validators (app_ctx w)
  /\ (loaded_dataframes (app_ctx w) !! k = Some df ->
      loaded_dataframes (app_ctx w') !! k = Some df).
Proof.
  unfold load_dataframe, _load_dataframe_from_path. unfold_monad.
  split_answers; split; try reflexivity; try tauto.
  all: intros Hk; rewrite lookup_insert_ne; [exact Hk|].
  all: intros Heq; rewrite <- Heq in Hk.
  all: match goal with H : ~ is_Some _ |- _ => apply H end; eauto.
Qed.

Lemma truthy_str_nonempty (x : option string) (s : string) :
  truthy_str x = Some s -> s <> "".
Proof. destruct x as [[|c r]|]; cbn; intros [= <-]; discriminate. Qed.

(** A returned id is never empty and is registered. *)
Lemma load_dataframe_returned
    (w w' : World) (input_path : string) (given : option string)
    (info : DataFrameInfo) :
  load_dataframe input_path given w = (Returned info, w') ->
  df_id info <> ""
  /\ is_Some (loaded_dataframes (app_ctx w') !! df_id info).
Proof.
  unfold load_dataframe, _load_dataframe_from_path. unfold_monad.
  destruct (truthy_str given) as [s|] eqn:Hgiven.
  all: split_answers; intros [= <- <-]; cbn.
  all: rewrite lookup_insert_eq; split; eauto.
  all: try (eapply truthy_str_nonempty; eassumption).
  all: discriminate.
Qed.

(** X5.  Once [load_dataframe] has returned an id, a later call that asks
    for that same id never succeeds and changes neither registry, whatever
    file it names. *)
Theorem X5_second_load_same_id_fails
    (w w' : World) (input_path other_path : string) (given : option string)
    (info : DataFrameInfo) :
  load_dataframe input_path given w = (Returned info, w') ->
  let again := load_dataframe other_path (Some (df_id info)) w' in
  is_raised (fst again) = true /\ app_ctx (snd again) = app_ctx w'.
Proof.
  intros Hfirst again. subst again.
  destruct (load_dataframe_returned _ _ _ _ _ Hfirst) as [Hne Hsome].
  assert (Htruthy : truthy_str (Some (df_id info)) = Some (df_id info))
    by (destruct (df_id info); [contradiction|reflexivity]).
  unfold load_dataframe, _load_dataframe_from_path. unfold_monad.
  rewrite Htruthy.
  split_answers; split; try reflexivity; contradiction.
Qed.

(** X6.  An empty string or an empty dict counts as a missing argument:
    the call is the very call with [None] in its place. *)
Theorem X6_falsy_arguments_are_absent
    (w : World) (input_path df_id validator_id : string)
    (given table_name validator_label : option string)
    (thresholds_dict actions_dict final_actions_dict : option kwargs)
    (brief : option bool) (lang locale : option string) :
  load_dataframe input_path (Some "") w = load_dataframe input_path None w
  /\ create_validator df_id (Some "") table_name validator_label
       thresholds_dict actions_dict final_actions_dict brief lang locale w
     = create_validator df_id None table_name validator_label
         thresholds_dict actions_dict final_actions_dict brief lang locale w
  /\ create_validator df_id given (Some "") (Some "") (Some []) (Some [])
       (Some []) brief (Some "") (Some "") w
     = create_validator df_id given None None None None None brief None
         None w
  /\ interrogate_validator validator_id (Some "") w
     = interrogate_validator validator_id None w.
Proof. repeat split; reflexivity. Qed.

(** ** More on [create_validator] *)

(** X7.  A table id that was never loaded: [ValueError], before any id is
    drawn or any engine constructor is called; the world as it was. *)
Theorem X7_create_unknown_table
    (w : World) (df_id : string)
    (validator_id table_name validator_label : option string)
    (thresholds_dict actions_dict final_actions_dict : option kwargs)
    (brief : option bool) (lang locale : option string) :
  loaded_dataframes (app_ctx w) !! df_id = None ->
  create_validator df_id validator_id table_name validator_label
    thresholds_dict actions_dict final_actions_dict brief lang locale w
  = (Raised (mkExn ValueError
       ("DataFrame ID '" +:+ df_id +:+
        "' not found. Please load it first using 'load_dataframe'.")), w).
Proof.
  intros Hnone. unfold create_validator. unfold_monad.
  rewrite Hnone. reflexivity.
Qed.

(** X8.  A validator id that is taken: [ValueError] naming the id, raised
    before the thresholds or actions are even looked at, so no engine
    constructor is called; registries and trace are as they were. *)
Theorem X8_create_duplicate_id
    (w : World) (df_id : string) (df : DataFrame) (taken : Validate)
    (validator_id table_name validator_label : option string)
    (thresholds_dict actions_dict final_actions_dict : option kwargs)
    (brief : option bool) (lang locale : option string) :
  let id := effective_id "validator_" validator_id w in
  let run := create_validator df_id validator_id table_name validator_label
               thresholds_dict actions_dict final_actions_dict brief lang
               locale w in
  loaded_dataframes (app_ctx w) !! df_id = Some df ->
  active_validators (app_ctx w) !! id = Some taken ->
  fst run = Raised (mkExn ValueError
    ("Validator ID '" +:+ id +:+
     "' already exists. Choose a different ID or omit to generate a new one."))
  /\ app_ctx (snd run) = app_ctx w
  /\ trace (snd run) = trace w.
Proof.
  intros id run Hdf Htaken. subst run. revert Htaken. subst id.
  unfold create_validator, effective_id, or_else. unfold_monad. rewrite Hdf.
  destruct (truthy_str validator_id) as [given|]; cbn; intros Htaken.
  all: destruct (decide _) as [_|Hfree]; [|exfalso; apply Hfree; eauto].
  all: repeat split; reflexivity.
Qed.

(** X9.  A [create_validator] call returns only when the table is loaded,
    the id it settles on was free and [pb.Validate] built a validator from
    that table and the defaulted names; the registry then maps the returned
    id to that validator and is otherwise as it was. *)
Theorem X9_create_returned
    (w w' : World) (df_id : string)
    (validator_id table_name validator_label : option string)
    (thresholds_dict actions_dict final_actions_dict : option kwargs)
    (brief : option bool) (lang locale : option string)
    (info : ValidatorInfo) :
  create_validator df_id validator_id table_name validator_label
    thresholds_dict actions_dict final_actions_dict brief lang locale w
  = (Returned info, w') ->
  let id := effective_id "validator_" validator_id w in
  exists df validator,
    info = mkValidatorInfo id
    /\ loaded_dataframes (app_ctx w) !! df_id = Some df
    /\ active_validators (app_ctx w) !! id = None
    /\ pb_Validate (validate_args df_id df table_name validator_label
                      thresholds_dict actions_dict final_actions_dict brief
                      lang locale) = Returned validator
    /\ app_ctx w'
       = mkAppContext (loaded_dataframes (app_ctx w))
           (<[id := validator]> (active_validators (app_ctx w)))
    /\ active_validators (app_ctx w') !! id = Some validator.
Proof.
  intros Hrun id. subst id. revert Hrun.
  unfold create_validator, validate_args, effective_id, or_else, accepted.
  unfold_monad.
  destruct (loaded_dataframes (app_ctx w) !! df_id) as [df|] eqn:Hdf;
    [|discriminate].
  destruct (truthy_str validator_id) as [given|]; cbn.
  all: destruct (decide _) as [|Hfree]; [discriminate|].
  all: apply eq_None_not_Some in Hfree.
  all: destruct (truthy_dict thresholds_dict) as [d|]; cbn;
         [destruct (pb_Thresholds d); cbn; [|discriminate]|].
  all: destruct (truthy_dict actions_dict) as [da|]; cbn;
         [destruct (pb_Actions da); cbn|].
  all: destruct (truthy_dict final_actions_dict) as [dfa|]; cbn;
         [destruct (pb_FinalActions dfa); cbn|].
  all: match goal with
       | |- context [pb_Validate ?a] =>
           destruct (pb_Validate a) as [validator|] eqn:Hval
       end; cbn; [|discriminate].
  all: intros [= <- <-]; cbn.
  all: exists df, validator; rewrite lookup_insert_eq; repeat split;
         assumption.
Qed.

(** X10.  Whatever a [create_validator] call does, the table registry is
    as it was and no validator that was registered is replaced. *)
Theorem X10_create_never_overwrites
    (w : World) (df_id : string)
    (validator_id table_name validator_label : option string)
    (thresholds_dict actions_dict final_actions_dict : option kwargs)
    (brief : option bool) (lang locale : option string)
    (k : string) (v : Validate) :
  let w' := snd (create_validator df_id validator_id table_name
                   validator_label thresholds_dict actions_dict
                   final_actions_dict brief lang locale w) in
  loaded_dataframes (app_ctx w') = loaded_dataframes (app_ctx w)
  /\ (active_validators (app_ctx w) !! k = Some v ->
      active_validators (app_ctx w') !! k = Some v).
Proof.
  unfold create_validator. unfold_monad.
  destruct (loaded_dataframes (app_ctx w) !! df_id) as [df|]; [|tauto].
  destruct (truthy_str validator_id) as [given|]; cbn.
  all: destruct (decide _) as [|Hfree]; [tauto|].
  all: split_answers; split; try reflexivity; try tauto.
  all: intros Hk; rewrite lookup_insert_ne; [exact Hk|].
  all: intros Heq; rewrite <- Heq in Hk; apply Hfree; eauto.
Qed.

(** ** More on [add_validation_step] *)

(** X11.  An unknown validator id: [ValueError], the world as it was; the
    validation type is not even looked up. *)
Theorem X11_add_step_unknown_validator
    (w : World) (validator_id validation_type : string) (params : kwargs)
    (actions_config : option kwargs) :
  active_validators (app_ctx w) !! validator_id = None ->
  add_validation_step validator_id validation_type params actions_config w
  = (Raised (mkExn ValueError
       ("Validator ID '" +:+ validator_id +:+
        "' not found. Please create it first using 'create_validator'.")), w).
Proof.
  intros Hnone. unfold add_validation_step. unfold_monad.
  rewrite Hnone. reflexivity.
Qed.

(** X12.  When the selected engine method raises: a [TypeError] becomes a
    [ValueError] that echoes the type, the parameters and the engine's
    text; anything else becomes a [RuntimeError] carrying the engine's
    text.  Either way the method was called once and the registry holds
    the validator as the method left it. *)
Theorem X12_add_step_engine_errors
    (w : World) (validator_id validation_type : string) (params : kwargs)
    (actions_config : option kwargs) (v v' : Validate) (m : engine_method)
    (e : PyExn) :
  active_validators (app_ctx w) !! validator_id = Some v ->
  dict_get supported_validations validation_type = Some m ->
  call_method m params v = (Some e, v') ->
  add_validation_step validator_id validation_type params actions_config w
  = (Raised
       (if is_TypeError e then
          mkExn ValueError
            ("Error calling validation method '" +:+ validation_type
             +:+ "' with params " +:+ repr_kwargs params
             +:+ ". Original error: " +:+ exn_str e
             +:+ ". Check parameter names and types against Pointblank's API for the '"
             +:+ validation_type +:+ "' method of the 'Validate' class.")
        else
          mkExn RuntimeError
            ("An unexpected error occurred while adding validation step '"
             +:+ validation_type +:+ "': " +:+ exn_str e)),
     step_added w validator_id m params v').
Proof.
  intros Hv Hm Hcall. unfold add_validation_step. unfold_monad.
  rewrite Hv, Hm. cbn. rewrite Hv, Hcall. cbn.
  destruct (is_TypeError e); reflexivity.
Qed.

(** X13.  [actions_config] is inert: two calls that differ only in it have
    the same outcome and leave the same world. *)
Theorem X13_actions_config_is_inert
    (w : World) (validator_id validation_type : string) (params : kwargs)
    (actions_config other_config : option kwargs) :
  add_validation_step validator_id validation_type params actions_config w
  = add_validation_step validator_id validation_type params other_config w.
Proof. reflexivity. Qed.

(** X14.  Whatever an [add_validation_step] call does, the tables, every
    other validator and the set of registered validator ids are as they
    were. *)
Theorem X14_add_step_touches_one_validator
    (w : World) (validator_id validation_type : string) (params : kwargs)
    (actions_config : option kwargs) (k : string) :
  let w' := snd (add_validation_step validator_id validation_type params
                   actions_config w) in
  loaded_dataframes (app_ctx w') = loaded_dataframes (app_ctx w)
  /\ (k <> validator_id ->
      active_validators (app_ctx w') !! k = active_validators (app_ctx w) !! k)
  /\ (is_Some (active_validators (app_ctx w') !! k)
      <-> is_Some (active_validators (app_ctx w) !! k)).
Proof.
  unfold add_validation_step. unfold_monad.
  destruct (active_validators (app_ctx w) !! validator_id) as [v|] eqn:Hv;
    [|cbn; tauto].
  destruct (dict_get supported_validations validation_type) as [m|];
    [|cbn; tauto].
  cbn. rewrite Hv.
  destruct (call_method m params v) as [[e|] v']; cbn.
  1: destruct (is_TypeError e); cbn.
  all: split; [reflexivity|split].
  all: try (intros Hk; now rewrite lookup_insert_ne).
  all: destruct (decide (k = validator_id)) as [->|Hk];
         [rewrite lookup_insert_eq, Hv; split; eauto
         |now rewrite lookup_insert_ne].
Qed.

Lemma dict_get_In {A} (d : list (string * A)) k a :
  dict_get d k = Some a -> In (k, a) d.
Proof.
  induction d as [|[k' a'] d IH]; cbn; [discriminate|].
  destruct (String.eqb_spec k k') as [->|_].
  - intros [= ->]. now left.
  - intros Hrest. right. now apply IH.
Qed.

Lemma dict_get_of_In {A} (d : list (string * A)) k a :
  List.NoDup (map fst d) -> In (k, a) d -> dict_get d k = Some a.
Proof.
  induction d as [|[k' a'] d IH]; cbn; [contradiction|].
  intros Hnodup Hin. apply List.NoDup_cons_iff in Hnodup as [Hfresh Hnodup].
  destruct Hin as [[= -> ->]|Hin].
  - now rewrite String.eqb_refl.
  - destruct (String.eqb_spec k k') as [->|_]; [|now apply IH].
    exfalso. apply Hfresh. apply (in_map fst) in Hin. exact Hin.
Qed.

Lemma In_snd_unique {A} (d : list (string * A)) k k' a :
  List.NoDup (map snd d) -> In (k, a) d -> In (k', a) d -> k = k'.
Proof.
  induction d as [|[k0 a0] d IH]; cbn; [contradiction|].
  intros Hnodup Hk Hk'. apply List.NoDup_cons_iff in Hnodup as [Hfresh Hnodup].
  destruct Hk as [Hk|Hk], Hk' as [Hk'|Hk'].
  - congruence.
  - injection Hk as -> ->. exfalso. apply Hfresh.
    apply (in_map snd) in Hk'. exact Hk'.
  - injection Hk' as -> ->. exfalso. apply Hfresh.
    apply (in_map snd) in Hk. exact Hk.
  - now apply IH.
Qed.

Lemma supported_keys_NoDup : List.NoDup supported_keys.
Proof.
  repeat (constructor; [cbn; intuition discriminate|]). constructor.
Qed.

Lemma supported_methods_NoDup :
  List.NoDup (map snd supported_validations).
Proof.
  repeat (constructor; [cbn; intuition discriminate|]). constructor.
Qed.

(** X15.  The dispatch table pairs type names and engine methods one to
    one: no name occurs twice, a name is supported exactly when it is a
    key, and every one of the engine methods is selected by one name and
    no other. *)
Theorem X15_dispatch_table_is_one_to_one :
  NoDup supported_keys
  /\ (forall k, In k supported_keys
                <-> is_Some (dict_get supported_validations k))
  /\ (forall m, exists k,
         dict_get supported_validations k = Some m
         /\ forall k', dict_get supported_validations k' = Some m -> k' = k).
Proof.
  split; [|split].
  - apply NoDup_ListNoDup, supported_keys_NoDup.
  - intros k. split.
    + intros Hin. apply in_map_iff in Hin as ([k0 m] & <- & Hin).
      exists m. apply dict_get_of_In; [apply supported_keys_NoDup|exact Hin].
    + intros [m Hm]. apply dict_get_In in Hm.
      apply (in_map fst) in Hm. exact Hm.
  - intros m.
    assert (Hm : In m (map snd supported_validations))
      by (destruct m; cbn; tauto).
    apply in_map_iff in Hm as ([k m'] & Heq & Hin). cbn in Heq. subst m'.
    exists k. split.
    + apply dict_get_of_In; [apply supported_keys_NoDup|exact Hin].
    + intros k' Hk'. apply dict_get_In in Hk'.
      exact (In_snd_unique _ _ _ _ supported_methods_NoDup Hk' Hin).
Qed.

(** ** More on [interrogate_validator] *)

(** X16.  An unknown validator id: [ValueError], nothing interrogated, the
    world as it was. *)
Theorem X16_interrogate_unknown_validator
    (w : World) (validator_id : string) (report_file_path : option string) :
  active_validators (app_ctx w) !! validator_id = None ->
  interrogate_validator validator_id report_file_path w
  = (Raised (mkExn ValueError
       ("Validator ID '" +:+ validator_id +:+ "' not found.")), w).
Proof.
  intros Hnone. unfold interrogate_validator. unfold_monad.
  rewrite Hnone. reflexivity.
Qed.

(** X17.  With no report path, a successful interrogation returns the
    parsed report and neither save field; the registry holds the
    interrogated validator, and the only events are the two engine calls:
    no directory is made, nothing is written or printed. *)
Theorem X17_interrogate_without_path
    (w : World) (validator_id : string) (v v' : Validate)
    (report : string) (summary : Json) :
  active_validators (app_ctx w) !! validator_id = Some v ->
  interrogate v = (None, v') ->
  get_json_report v' = Returned report ->
  json_loads report = Returned summary ->
  interrogate_validator validator_id None w
  = (Returned (mkOutput summary None None),
     mkWorld (with_validator w validator_id v') (uuid_draws w)
       (trace w ++ [CallInterrogate validator_id;
                    CallGetJsonReport validator_id])).
Proof.
  intros Hv Hint Hrep Hsum. unfold interrogate_validator. unfold_monad.
  rewrite Hv. cbn. rewrite Hv, Hint. cbn. rewrite lookup_insert_eq. cbn.
  rewrite Hrep. cbn. rewrite Hsum. cbn. rewrite <- app_assoc. reflexivity.
Qed.

(** X18.  With a report path ending in [.csv] (in any letter case), and
    every step of the saving going well, the call returns the report with
    [csv_report_saved_to] set to the resolved path; the report table is
    written to the path as given, after the parent directory was made, and
    progress is reported last. *)
Theorem X18_interrogate_saves_report
    (w : World) (validator_id path : string) (v v' : Validate)
    (report : string) (summary : Json) (frame : DataFrame) :
  active_validators (app_ctx w) !! validator_id = Some v ->
  path <> "" -> endswith (lower path) ".csv" = true ->
  interrogate v = (None, v') ->
  get_json_report v' = Returned report ->
  json_loads report = Returned summary ->
  mkdir_parents path = None ->
  report_frame summary = Returned frame ->
  to_csv frame path = None ->
  interrogate_validator validator_id (Some path) w
  = (Returned (mkOutput summary (Some (path_resolve path)) None),
     mkWorld (with_validator w validator_id v') (uuid_draws w)
       (trace w ++ [CallInterrogate validator_id;
                    CallGetJsonReport validator_id;
                    Mkdir path;
                    ToCsv frame path;
                    CtxProgress 100 100
                      ("Report saved to " +:+ path_resolve path)])).
Proof.
  intros Hv Hne Hend Hint Hrep Hsum Hmk Hframe Hwrite.
  assert (Htruthy : truthy_str (Some path) = Some path)
    by (destruct path; [contradiction|reflexivity]).
  unfold interrogate_validator. unfold_monad.
  rewrite Hv, Htruthy, Hend. cbn. rewrite Hv, Hint. cbn.
  rewrite lookup_insert_eq. cbn.
  repeat (rewrite ?Hrep, ?Hsum, ?Hmk, ?Hframe, ?Hwrite; cbn).
  rewrite <- !app_assoc. reflexivity.
Qed.

(** X19.  A failure of the engine while interrogating, or while rendering
    the JSON report, is raised as a [RuntimeError] that carries the
    engine's text.  In the first case the report is never asked for; in
    both, the path is never looked at: no directory, no file, no print. *)
Theorem X19_interrogate_engine_failure
    (w : World) (validator_id : string) (report_file_path : option string)
    (v v' : Validate) (e : PyExn) :
  active_validators (app_ctx w) !! validator_id = Some v ->
  (interrogate v = (Some e, v') ->
   interrogate_validator validator_id report_file_path w
   = (Raised (mkExn RuntimeError
        ("Error during validator interrogation: " +:+ exn_str e)),
      mkWorld (with_validator w validator_id v') (uuid_draws w)
        (trace w ++ [CallInterrogate validator_id])))
  /\ (interrogate v = (None, v') -> get_json_report v' = Raised e ->
      interrogate_validator validator_id report_file_path w
      = (Raised (mkExn RuntimeError
           ("Error during validator interrogation: " +:+ exn_str e)),
         mkWorld (with_validator w validator_id v') (uuid_draws w)
           (trace w ++ [CallInterrogate validator_id;
                        CallGetJsonReport validator_id]))).
Proof.
  intros Hv. split.
  - intros Hint. unfold interrogate_validator. unfold_monad.
    rewrite Hv. cbn. rewrite Hv, Hint. reflexivity.
  - intros Hint Hrep. unfold interrogate_validator. unfold_monad.
    rewrite Hv. cbn. rewrite Hv, Hint. cbn. rewrite lookup_insert_eq. cbn.
    rewrite Hrep. cbn. rewrite <- app_assoc. reflexivity.
Qed.

(** X20.  What lies outside the two [try] blocks is raised as it comes: a
    report that [json.loads] rejects, and a parent directory that cannot
    be made, both surface as the collaborator's own exception, although
    the interrogation has run and the registry holds its result. *)
Theorem X20_interrogate_unguarded_failures
    (w : World) (validator_id : string) (report_file_path : option string)
    (v v' : Validate) (report : string) (e : PyExn) :
  active_validators (app_ctx w) !! validator_id = Some v ->
  interrogate v = (None, v') ->
  get_json_report v' = Returned report ->
  (json_loads report = Raised e ->
   interrogate_validator validator_id report_file_path w
   = (Raised e,
      mkWorld (with_validator w validator_id v') (uuid_draws w)
        (trace w ++ [CallInterrogate validator_id;
                     CallGetJsonReport validator_id])))
  /\ (forall path summary,
        json_loads report = Returned summary ->
        truthy_str report_file_path = Some path ->
        endswith (lower path) ".csv" = true ->
        mkdir_parents path = Some e ->
        interrogate_validator validator_id report_file_path w
        = (Raised e,
           mkWorld (with_validator w validator_id v') (uuid_draws w)
             (trace w ++ [CallInterrogate validator_id;
                          CallGetJsonReport validator_id;
                          Mkdir path]))).
Proof.
  intros Hv Hint Hrep. split.
  - intros Hsum. unfold interrogate_validator. unfold_monad.
    rewrite Hv. cbn. rewrite Hv, Hint. cbn. rewrite lookup_insert_eq. cbn.
    rewrite Hrep. cbn. rewrite Hsum. cbn. rewrite <- app_assoc. reflexivity.
  - intros path summary Hsum Htruthy Hend Hmk.
    unfold interrogate_validator. unfold_monad.
    rewrite Hv, Htruthy, Hend. cbn. rewrite Hv, Hint. cbn.
    rewrite lookup_insert_eq. cbn.
    repeat (rewrite ?Hrep, ?Hsum, ?Hmk; cbn).
    rewrite <- !app_assoc. reflexivity.
Qed.

(** X21.  Whatever an [interrogate_validator] call does, the tables, every
    other validator and the set of registered validator ids are as they
    were, and no uuid is drawn. *)
Theorem X21_interrogate_touches_one_validator
    (w : World) (validator_id : string) (report_file_path : option string)
    (k : string) :
  let w' := snd (interrogate_validator validator_id report_file_path w) in
  loaded_dataframes (app_ctx w') = loaded_dataframes (app_ctx w)
  /\ (k <> validator_id ->
      active_validators (app_ctx w') !! k = active_validators (app_ctx w) !! k)
  /\ (is_Some (active_validators (app_ctx w') !! k)
      <-> is_Some (active_validators (app_ctx w) !! k))
  /\ uuid_draws w' = uuid_draws w.
Proof.
  unfold interrogate_validator. unfold_monad.
  destruct (active_validators (app_ctx w) !! validator_id) as [v|] eqn:Hv;
    [|cbn; tauto].
  cbn. rewrite Hv.
  destruct (interrogate v) as [[e|] v']; cbn.
  2: rewrite lookup_insert_eq; cbn.
  all: split_answers.
  all: split; [reflexivity|split; [|split; [|reflexivity]]].
  all: try (intros Hk; now rewrite lookup_insert_ne).
  all: destruct (decide (k = validator_id)) as [->|Hk];
         [rewrite lookup_insert_eq, Hv; split; eauto
         |now rewrite lookup_insert_ne].
Qed.

(** ** More on [get_validation_step_output] *)

(** X22.  An unknown validator id: [ValueError], whatever the path and the
    index are (the id is checked first); the world as it was. *)
Theorem X22_extract_unknown_validator
    (w : World) (validator_id output_path sundered_type : string)
    (step_index : option Z) :
  active_validators (app_ctx w) !! validator_id = None ->
  get_validation_step_output validator_id output_path sundered_type
    step_index w
  = (Raised (mkExn ValueError
       ("Validator ID '" +:+ validator_id +:+ "' not found.")), w).
Proof.
  intros Hnone. unfold get_validation_step_output. unfold_monad.
  rewrite Hnone. reflexivity.
Qed.

(** X23.  Whatever a [get_validation_step_output] call does, it changes
    neither registry and draws no uuid: extraction only reads. *)
Theorem X23_extract_only_reads
    (w : World) (validator_id output_path sundered_type : string)
    (step_index : option Z) :
  let w' := snd (get_validation_step_output validator_id output_path
                   sundered_type step_index w) in
  app_ctx w' = app_ctx w /\ uuid_draws w' = uuid_draws w.
Proof.
  unfold get_validation_step_output, retrieve. unfold_monad.
  destruct step_index as [i|].
  all: split_answers; split; reflexivity.
Qed.

(** X24.  In either mode, when the engine hands back a non-empty pandas
    frame and the write goes well, the call returns status [success], the
    resolved path as [output_file] and in the message; the frame is
    written to the path as given, after the directory was made and the
    engine was asked, and progress is reported last. *)
Theorem X24_extract_writes_frame
    (w : World) (validator_id output_path sundered_type : string)
    (step_index : option Z) (v : Validate) (ex : Extract)
    (frame : DataFrame) :
  active_validators (app_ctx w) !! validator_id = Some v ->
  lower (path_suffix output_path) = ".csv" ->
  negative_index step_index = false ->
  mkdir_parents output_path = None ->
  pathway_answer v sundered_type step_index = Returned (Some ex) ->
  extract_empty ex = Returned false ->
  extract_as_pandas ex = Some frame ->
  to_csv frame output_path = None ->
  get_validation_step_output validator_id output_path sundered_type
    step_index w
  = (Returned (ValidationOutput.mk "success"
       ("Data extract saved to " +:+ path_resolve output_path)
       (Some (path_resolve output_path))),
     mkWorld (app_ctx w) (uuid_draws w)
       (trace w ++ interrogation_warning validator_id v ++
        [Mkdir output_path;
         pathway_event validator_id sundered_type step_index;
         ToCsv frame output_path;
         CtxProgress 100 100
           ("Data extract saved to " +:+ path_resolve output_path)])%list).
Proof.
  intros Hv Hcsv Hidx Hmk Hex Hempty Hpandas Hwrite.
  unfold get_validation_step_output, retrieve, interrogation_warning,
    pathway_answer, pathway_event in *. unfold_monad.
  rewrite Hv, Hcsv, Hidx. cbn.
  destruct step_index as [i|]; destruct (time_processed v); cbn.
  all: repeat (rewrite ?Hv, ?Hmk, ?Hex, ?Hempty, ?Hpandas, ?Hwrite; cbn).
  all: rewrite <- ?app_assoc; reflexivity.
Qed.

(** X25.  Sundered mode with no rows of the requested type ([None] or an
    empty frame): status [success], a message naming the type, no output
    file and no write.  The type string goes to the engine as given. *)
Theorem X25_sundered_empty_is_success
    (w : World) (validator_id output_path sundered_type : string)
    (v : Validate) :
  active_validators (app_ctx w) !! validator_id = Some v ->
  lower (path_suffix output_path) = ".csv" ->
  mkdir_parents output_path = None ->
  (get_sundered_data v sundered_type = Returned None
   \/ exists ex, get_sundered_data v sundered_type = Returned (Some ex)
                /\ extract_empty ex = Returned true) ->
  get_validation_step_output validator_id output_path sundered_type None w
  = (Returned (ValidationOutput.mk "success"
       ("No sundered data available for type '" +:+ sundered_type +:+ "'.")
       None),
     mkWorld (app_ctx w) (uuid_draws w)
       (trace w ++ interrogation_warning validator_id v ++
        [Mkdir output_path;
         CallGetSunderedData validator_id sundered_type])%list).
Proof.
  intros Hv Hcsv Hmk Hex.
  unfold get_validation_step_output, retrieve, interrogation_warning.
  unfold_monad. rewrite Hv, Hcsv. cbn.
  destruct Hex as [Hex|(ex & Hex & Hempty)].
  all: destruct (time_processed v); cbn.
  all: repeat (rewrite ?Hmk, ?Hv, ?Hex, ?Hempty; cbn).
  all: rewrite <- ?app_assoc; reflexivity.
Qed.

(** X26.  A non-empty extract that is not a pandas frame is not written:
    the [TypeError] naming its type comes back wrapped in a
    [RuntimeError]. *)
Theorem X26_extract_rejects_other_frames
    (w : World) (validator_id output_path sundered_type : string)
    (step_index : option Z) (v : Validate) (ex : Extract) :
  active_validators (app_ctx w) !! validator_id = Some v ->
  lower (path_suffix output_path) = ".csv" ->
  negative_index step_index = false ->
  mkdir_parents output_path = None ->
  pathway_answer v sundered_type step_index = Returned (Some ex) ->
  extract_empty ex = Returned false ->
  extract_as_pandas ex = None ->
  get_validation_step_output validator_id output_path sundered_type
    step_index w
  = (Raised (mkExn RuntimeError
       ("Error getting output for validator '" +:+ validator_id +:+
        "': " +:+ "Unsupported DataFrame type '" +:+ extract_type_name ex
        +:+ "' for CSV export.")),
     mkWorld (app_ctx w) (uuid_draws w)
       (trace w ++ interrogation_warning validator_id v ++
        [Mkdir output_path;
         pathway_event validator_id sundered_type step_index])%list).
Proof.
  intros Hv Hcsv Hidx Hmk Hex Hempty Hpandas.
  unfold get_validation_step_output, retrieve, interrogation_warning,
    pathway_answer, pathway_event in *. unfold_monad.
  rewrite Hv, Hcsv, Hidx. cbn.
  destruct step_index as [i|]; destruct (time_processed v); cbn.
  all: repeat (rewrite ?Hv, ?Hmk, ?Hex, ?Hempty, ?Hpandas; cbn).
  all: rewrite <- ?app_assoc; reflexivity.
Qed.

(** X27.  A failure of the engine while retrieving (an index with no step,
    say), or of the [.empty] test on what it returned, is raised as a
    [RuntimeError] carrying the engine's text.  The parent directory has
    been made by then; nothing is written. *)
Theorem X27_extract_engine_failure
    (w : World) (validator_id output_path sundered_type : string)
    (step_index : option Z) (v : Validate) (e : PyExn) :
  active_validators (app_ctx w) !! validator_id = Some v ->
  lower (path_suffix output_path) = ".csv" ->
  negative_index step_index = false ->
  mkdir_parents output_path = None ->
  (pathway_answer v sundered_type step_index = Raised e
   \/ exists ex, pathway_answer v sundered_type step_index
                 = Returned (Some ex)
                /\ extract_empty ex = Raised e) ->
  get_validation_step_output validator_id output_path sundered_type
    step_index w
  = (Raised (mkExn RuntimeError
       ("Error getting output for validator '" +:+ validator_id +:+
        "': " +:+ exn_str e)),
     mkWorld (app_ctx w) (uuid_draws w)
       (trace w ++ interrogation_warning validator_id v ++
        [Mkdir output_path;
         pathway_event validator_id sundered_type step_index])%list).
Proof.
  intros Hv Hcsv Hidx Hmk Hex.
  unfold get_validation_step_output, retrieve, interrogation_warning,
    pathway_answer, pathway_event in *. unfold_monad.
  rewrite Hv, Hcsv, Hidx. cbn.
  destruct Hex as [Hex|(ex & Hex & Hempty)].
  all: destruct step_index as [i|]; destruct (time_processed v); cbn.
  all: repeat (rewrite ?Hv, ?Hmk, ?Hex, ?Hempty; cbn).
  all: rewrite <- ?app_assoc; reflexivity.
Qed.

(** X28.  A parent directory that cannot be made stops the extraction
    before the engine is asked for anything, and comes back wrapped in a
    [RuntimeError] (where [interrogate_validator] lets it through bare). *)
Theorem X28_extract_mkdir_failure
    (w : World) (validator_id output_path sundered_type : string)
    (step_index : option Z) (v : Validate) (e : PyExn) :
  active_validators (app_ctx w) !! validator_id = Some v ->
  lower (path_suffix output_path) = ".csv" ->
  negative_index step_index = false ->
  mkdir_parents output_path = Some e ->
  get_validation_step_output validator_id output_path sundered_type
    step_index w
  = (Raised (mkExn RuntimeError
       ("Error getting output for validator '" +:+ validator_id +:+
        "': " +:+ exn_str e)),
     mkWorld (app_ctx w) (uuid_draws w)
       (trace w ++ interrogation_warning validator_id v ++
        [Mkdir output_path])%list).
Proof.
  intros Hv Hcsv Hidx Hmk.
  unfold get_validation_step_output, interrogation_warning. unfold_monad.
  rewrite Hv, Hcsv, Hidx. cbn.
  destruct (time_processed v); cbn; rewrite Hmk; cbn.
  all: rewrite <- ?app_assoc; reflexivity.
Qed.

(** ** The session *)

(** X29.  On the registries a session starts with, and on those it is left
    with at shutdown, no id resolves: every tool that takes a table or
    validator id raises its not-found [ValueError] and does nothing. *)
Theorem X29_empty_session_resolves_nothing
    (w : World) (context : AppContext) (id validation_type path : string)
    (sundered_type : string) (step_index : option Z) (params : kwargs)
    (report_file_path : option string) :
  app_ctx w = app_lifespan_enter \/ app_ctx w = app_lifespan_exit context ->
  create_validator id None None None None None None None None None w
  = (Raised (mkExn ValueError
       ("DataFrame ID '" +:+ id +:+
        "' not found. Please load it first using 'load_dataframe'.")), w)
  /\ add_validation_step id validation_type params None w
     = (Raised (mkExn ValueError
          ("Validator ID '" +:+ id +:+
           "' not found. Please create it first using 'create_validator'.")),
        w)
  /\ get_validation_step_output id path sundered_type step_index w
     = (Raised (mkExn ValueError
          ("Validator ID '" +:+ id +:+ "' not found.")), w)
  /\ interrogate_validator id report_file_path w
     = (Raised (mkExn ValueError
          ("Validator ID '" +:+ id +:+ "' not found.")), w).
Proof.
  intros Hempty.
  assert (Hdf : loaded_dataframes (app_ctx w) !! id = None)
    by (destruct Hempty as [-> | ->]; apply lookup_empty).
  assert (Hv : active_validators (app_ctx w) !! id = None)
    by (destruct Hempty as [-> | ->]; apply lookup_empty).
  unfold create_validator, add_validation_step, get_validation_step_output,
    interrogate_validator. unfold_monad.
  rewrite Hdf, Hv. repeat split; reflexivity.
Qed.

End Laws.

(** * The laws at work on the concrete engine *)

Section Scenarios.
#[local] Existing Instance Demo.engine.

Example scenario_registry :
  active_validators (app_ctx Demo.two_steps) !! "v_y"
  = Some Demo.two_steps_validator.
Proof. vm_compute. reflexivity. Qed.

(** The end-to-end scenario: the failing rows of [col_vals_gt 0] are the
    ones written. *)
Example scenario_extract :
  let run := get_validation_step_output "v_y" "out.csv" "fail" None
               Demo.one_step in
  fst run = Returned (ValidationOutput.mk "success"
              "Data extract saved to /srv/out.csv" (Some "/srv/out.csv"))
  /\ In (ToCsv [[2; -3]; [3; 0]]%Z "out.csv") (trace (snd run)).
Proof. vm_compute. split; [reflexivity|tauto]. Qed.

Lemma C1_witness :
  let w' := snd (get_validation_step_output "v_y" "out.csv" "fail" None
                   Demo.one_step) in
  time_processed Demo.one_step_validator = false
  /\ (exists rest,
        new_events Demo.one_step w' =
          CtxWarning
            "Validator 'v_y' has not been interrogated. Interrogating now."
          :: rest
        /\ Forall (fun ev => forall id, ev <> CallInterrogate id) rest)
  /\ active_validators (app_ctx w') !! "v_y" = Some Demo.one_step_validator.
Proof.
  split; [reflexivity|].
  destruct (C1_extract_warns_without_interrogating Demo.one_step "v_y"
              "out.csv" "fail" None Demo.one_step_validator)
    as [Hevents Hctx]; try (vm_compute; reflexivity).
  split; [exact Hevents|]. rewrite Hctx. vm_compute. reflexivity.
Defined.

(** Two successful appends of the same rule return the same value, so no
    reading of the returned value yields the indices 0 and 1. *)
Lemma C2_counterexample :
  let first := add_validation_step "v_y" "col_vals_gt" [("value", 0%Z)] None
                 Demo.created in
  let second := add_validation_step "v_y" "col_vals_gt" [("value", 0%Z)] None
                  (snd first) in
  exists r0 r1,
    fst first = Returned r0 /\ fst second = Returned r1
    /\ ~ exists step_index : ValidationStepInfo.t -> nat,
          step_index r0 = 0 /\ step_index r1 = 1.
Proof.
  eexists. eexists. split; [vm_compute; reflexivity|].
  split; [vm_compute; reflexivity|].
  intros (step_index & H0 & H1). rewrite H0 in H1. discriminate H1.
Qed.

Lemma C2_witness :
  let run := add_validation_step "v_y" "col_exists" [("columns", 1%Z)] None
               Demo.one_step in
  fst run = Returned (ValidationStepInfo.mk "v_y"
                        "Validation step 'col_exists' added successfully.")
  /\ snd run = step_added Demo.one_step "v_y" col_exists [("columns", 1%Z)]
                 Demo.two_steps_validator.
Proof.
  destruct (C2_add_step_returns_id_and_status Demo.one_step Demo.two_steps
              "v_y" "col_exists" [("columns", 1%Z)] None
              (ValidationStepInfo.mk "v_y"
                 "Validation step 'col_exists' added successfully."))
    as (_ & m & v & v' & Hm & Hv & Hcall & Hw); [vm_compute; reflexivity|].
  split; [vm_compute; reflexivity|].
  change (Demo.two_steps = step_added Demo.one_step "v_y" col_exists
                             [("columns", 1%Z)] Demo.two_steps_validator).
  rewrite Hw. vm_compute in Hm, Hv. injection Hm as <-. injection Hv as <-.
  vm_compute in Hcall. injection Hcall as <-. reflexivity.
Defined.

(** A report path ending in [.txt]: the interrogation has run, and the call
    returns rather than rejecting. *)
Lemma C3_counterexample :
  let run := interrogate_validator "v_y" (Some "report.txt") Demo.one_step in
  lower (path_suffix "report.txt") <> ".csv"
  /\ is_raised (fst run) = false
  /\ new_events Demo.one_step (snd run) =
       [CallInterrogate "v_y"; CallGetJsonReport "v_y";
        Print "Unsupported report file extension. Use .csv."]
  /\ option_map Demo.processed
       (active_validators (app_ctx (snd run)) !! "v_y") = Some true.
Proof.
  split; [vm_compute; discriminate|].
  vm_compute. repeat split; reflexivity.
Qed.

Lemma C3_witness :
  get_validation_step_output "v_y" "out.txt" "fail" (Some 0%Z) Demo.one_step
  = (Raised (mkExn ValueError
       "Unsupported file format '.txt'. Please use '.csv'."), Demo.one_step)
  /\ fst (interrogate_validator "v_y" (Some "report.txt") Demo.one_step)
     = Returned (mkOutput "[]" None
         (Some "Unsupported report file extension. Use .csv.")).
Proof.
  destruct (C3_extension_checked_first_by_extract_only Demo.one_step "v_y"
              "out.txt" "fail" (Some 0%Z) Demo.one_step_validator)
    as [Hextract _]; [vm_compute; reflexivity|].
  destruct (C3_extension_checked_first_by_extract_only Demo.one_step "v_y"
              "report.txt" "fail" (Some 0%Z) Demo.one_step_validator)
    as [_ Hinterrogate]; [vm_compute; reflexivity|].
  split.
  - apply Hextract. vm_compute. discriminate.
  - destruct Hinterrogate as [_ Hreport];
      [discriminate|vm_compute; reflexivity|].
    apply (Hreport (Demo.mkValidator [[1; 5]; [2; -3]; [3; 0]]%Z
                      [(col_vals_gt, [("value", 0%Z)])] true) "[]" "[]");
      reflexivity.
Defined.

Lemma C5_witness :
  exists msg,
    add_validation_step "v_y" "col_vals_bogus" [("value", 0%Z)] None
      Demo.one_step
    = (Raised (mkExn ValueError msg), Demo.one_step)
    /\ exists pre post, msg = pre +:+ "'col_vals_between'" +:+ post.
Proof.
  destruct (C5_unsupported_type_rejected Demo.one_step "v_y" "col_vals_bogus"
              Demo.one_step_validator [("value", 0%Z)] None)
    as (msg & Hrun & _ & Hkeys).
  - vm_compute. reflexivity.
  - intros Hin. cbn in Hin.
    repeat (destruct Hin as [Hin|Hin]; [discriminate Hin|]). exact Hin.
  - exists msg. split; [exact Hrun|].
    apply (Hkeys "col_vals_between"). cbn. tauto.
Defined.

Lemma C6_witness :
  get_validation_step_output "v_y" "out.csv" "pass" (Some 0%Z) Demo.one_step
  = get_validation_step_output "v_y" "out.csv" "fail" (Some 0%Z) Demo.one_step
  /\ In (CallGetDataExtracts "v_y" 0)
       (new_events Demo.one_step
          (snd (get_validation_step_output "v_y" "out.csv" "fail" (Some 0%Z)
                  Demo.one_step)))
  /\ get_data_extracts Demo.one_step_validator 0
     = Returned (Some [[2; -3]; [3; 0]]%Z)
  /\ get_sundered_data Demo.one_step_validator "pass"
     = Returned (Some [[1; 5]]%Z)
  /\ fst (get_validation_step_output "v_y" "out.csv" "pass" (Some 0%Z)
            Demo.one_step)
     = Returned (ValidationOutput.mk "success"
         "Data extract saved to /srv/out.csv" (Some "/srv/out.csv"))
  /\ new_events Demo.one_step
       (snd (get_validation_step_output "v_y" "out.csv" "pass" (Some 0%Z)
               Demo.one_step))
     = [CtxWarning
          "Validator 'v_y' has not been interrogated. Interrogating now.";
        Mkdir "out.csv"; CallGetDataExtracts "v_y" 0;
        ToCsv [[2; -3]; [3; 0]]%Z "out.csv";
        CtxProgress 100 100 "Data extract saved to /srv/out.csv"].
Proof.
  destruct (C6_step_index_wins Demo.one_step "v_y" "out.csv" "fail"
              Demo.one_step_validator 0%Z)
    as (Hsame & _ & Hasked & _); [vm_compute; reflexivity|].
  destruct (C6_step_index_wins Demo.one_step "v_y" "out.csv" "pass"
              Demo.one_step_validator 0%Z)
    as (_ & _ & _ & Hdecided); [vm_compute; reflexivity|].
  destruct Hdecided as (Hwritten & _ & _);
    [vm_compute; reflexivity|lia|reflexivity|].
  split; [apply Hsame|].
  split; [apply Hasked; [vm_compute; reflexivity|lia|reflexivity]|].
  split; [reflexivity|]. split; [reflexivity|].
  rewrite (Hwritten [[2; -3]; [3; 0]]%Z [[2; -3]; [3; 0]]%Z);
    [|reflexivity|reflexivity|reflexivity|reflexivity].
  split; [reflexivity|]. vm_compute. reflexivity.
Defined.

Lemma C7_witness :
  get_validation_step_output "v_y" "out.csv" "fail" (Some (-1)%Z)
    Demo.one_step
  = (Raised (mkExn ValueError "The 'step_index' cannot be a negative number."),
     Demo.one_step).
Proof.
  apply (C7_negative_index_rejected Demo.one_step "v_y" "out.csv" "fail"
           Demo.one_step_validator (-1)%Z);
    [vm_compute; reflexivity|vm_compute; reflexivity|lia].
Defined.

Lemma C8_witness :
  let run := get_validation_step_output "v_y" "out.csv" "fail" (Some 1%Z)
               Demo.two_steps in
  fst run = Returned (ValidationOutput.mk "success"
      "No data extract available for step 1. This may mean all rows passed this validation step."
      None)
  /\ new_events Demo.two_steps (snd run) =
       [CtxWarning
          "Validator 'v_y' has not been interrogated. Interrogating now.";
        Mkdir "out.csv"; CallGetDataExtracts "v_y" 1].
Proof.
  destruct (C8_empty_evidence_is_success Demo.two_steps "v_y" "out.csv"
              "fail" Demo.two_steps_validator 1%Z)
    as (Hout & Hevents & _).
  - vm_compute. reflexivity.
  - vm_compute. reflexivity.
  - lia.
  - reflexivity.
  - left. vm_compute. reflexivity.
  - split; [exact Hout|exact Hevents].
Defined.

Lemma C9_witness :
  is_raised (fst (load_dataframe "data.csv" (Some "df_x") Demo.created)) = true
  /\ app_ctx (snd (load_dataframe "data.csv" (Some "df_x") Demo.created))
     = app_ctx Demo.created
  /\ is_raised (fst (create_validator "df_missing" (Some "v_z") None None
                       None None None None None None Demo.created)) = true
  /\ app_ctx (snd (create_validator "df_missing" (Some "v_z") None None
                     None None None None None None Demo.created))
     = app_ctx Demo.created.
Proof.
  destruct (C9_failed_call_keeps_registries Demo.created "data.csv"
              (Some "df_x") "df_missing" (Some "v_z") None None None None
              None None None None) as [Hload Hcreate].
  assert (Hl : is_raised (fst (load_dataframe "data.csv" (Some "df_x")
                                 Demo.created)) = true)
    by (vm_compute; reflexivity).
  assert (Hc : is_raised (fst (create_validator "df_missing" (Some "v_z")
                                 None None None None None None None None
                                 Demo.created)) = true)
    by (vm_compute; reflexivity).
  split; [exact Hl|]. split; [exact (Hload Hl)|].
  split; [exact Hc|exact (Hcreate Hc)].
Defined.

Lemma C10_witness :
  let bad_actions := Some [("bogus", 1%Z)] in
  let bad_thresholds := Some [("alarm", 1%Z)] in
  let run := create_validator "df_x" (Some "v_z") None None None bad_actions
               None None None None Demo.created in
  let strict := create_validator "df_x" (Some "v_z") None None bad_thresholds
                  bad_actions None None None None Demo.created in
  malformed pb_Actions bad_actions
  /\ fst run = Returned (mkValidatorInfo "v_z")
  /\ active_validators (app_ctx (snd run)) !! "v_z" = Some Demo.fresh_validator
  /\ fst strict = Raised (mkExn ValueError
       "Error creating pb.Thresholds from thresholds_dict: got an unexpected keyword argument")
  /\ app_ctx (snd strict) = app_ctx Demo.created.
Proof.
  intros bad_actions bad_thresholds run strict.
  assert (Hbad : malformed pb_Actions bad_actions).
  { exists [("bogus", 1%Z)],
           (mkExn TypeError "got an unexpected keyword argument").
    split; reflexivity. }
  split; [exact Hbad|].
  destruct (C10_rejected_actions_become_none Demo.created "df_x"
              [[1; 5]; [2; -3]; [3; 0]]%Z (Some "v_z") None None None
              bad_actions None None None None)
    as [Hcreated _]; [vm_compute; reflexivity|vm_compute; reflexivity
                     |left; exact Hbad|].
  destruct (Hcreated Demo.fresh_validator) as (Hret & Hctx & _);
    [discriminate|vm_compute; reflexivity|].
  destruct (C10_rejected_actions_become_none Demo.created "df_x"
              [[1; 5]; [2; -3]; [3; 0]]%Z (Some "v_z") None None
              bad_thresholds bad_actions None None None None)
    as [_ Hstrict]; [vm_compute; reflexivity|vm_compute; reflexivity
                    |left; exact Hbad|].
  destruct (Hstrict [("alarm", 1%Z)]
              (mkExn TypeError "got an unexpected keyword argument"))
    as [Hraise Hkept]; [reflexivity|reflexivity|].
  split; [exact Hret|]. split.
  - subst run. rewrite Hctx. vm_compute. reflexivity.
  - split; [exact Hraise|exact Hkept].
Defined.

End Scenarios.

(** * More scenarios on the first engine *)

Section MoreScenarios.
#[local] Existing Instance Demo.engine.

Lemma X1_witness :
  load_dataframe "missing.csv" (Some "df_y") Demo.created
  = (Raised (mkExn FileNotFoundError "Input file 'missing.csv' not found."),
     Demo.created).
Proof.
  apply (X1_load_missing_file Demo.created "missing.csv" (Some "df_y")).
  reflexivity.
Defined.

Lemma X3_witness :
  fst (load_dataframe "data.csv" None Demo.created)
  = Returned (mkDataFrameInfo "df_9f86d080" (3, 2) ["id"; "score"])
  /\ uuid_draws (snd (load_dataframe "data.csv" None Demo.created)) = 1.
Proof.
  rewrite (X3_load_registers_frame Demo.created "data.csv" None
             [[1; 5]; [2; -3]; [3; 0]]%Z).
  - split; vm_compute; reflexivity.
  - reflexivity.
  - left. split; vm_compute; reflexivity.
  - vm_compute. reflexivity.
Defined.

Lemma X5_witness :
  let again := load_dataframe "data.csv" (Some "df_x") Demo.loaded in
  is_raised (fst again) = true /\ app_ctx (snd again) = app_ctx Demo.loaded.
Proof.
  apply (X5_second_load_same_id_fails Demo.empty_world Demo.loaded
           "data.csv" "data.csv" (Some "df_x")
           (mkDataFrameInfo "df_x" (3, 2) ["id"; "score"])).
  vm_compute. reflexivity.
Defined.

Lemma X7_witness :
  create_validator "df_missing" (Some "v_z") None None None None None None
    None None Demo.created
  = (Raised (mkExn ValueError
       "DataFrame ID 'df_missing' not found. Please load it first using 'load_dataframe'."),
     Demo.created).
Proof.
  apply (X7_create_unknown_table Demo.created "df_missing" (Some "v_z")).
  vm_compute. reflexivity.
Defined.

Lemma X8_witness :
  let run := create_validator "df_x" (Some "v_y") None None
               (Some [("warning", 1%Z)]) None None None None None
               Demo.one_step in
  fst run = Raised (mkExn ValueError
    "Validator ID 'v_y' already exists. Choose a different ID or omit to generate a new one.")
  /\ app_ctx (snd run) = app_ctx Demo.one_step
  /\ trace (snd run) = trace Demo.one_step.
Proof.
  apply (X8_create_duplicate_id Demo.one_step "df_x"
           [[1; 5]; [2; -3]; [3; 0]]%Z Demo.one_step_validator (Some "v_y"));
    vm_compute; reflexivity.
Defined.

Lemma X9_witness :
  exists validator,
    pb_Validate (validate_args "df_x" [[1; 5]; [2; -3]; [3; 0]]%Z None None
                   None None None None None None) = Returned validator
    /\ active_validators (app_ctx Demo.created) !! "v_y" = Some validator.
Proof.
  destruct (X9_create_returned Demo.loaded Demo.created "df_x" (Some "v_y")
              None None None None None None None None (mkValidatorInfo "v_y"))
    as (df & validator & _ & Hdf & _ & Hval & _ & Hfound);
    [vm_compute; reflexivity|].
  vm_compute in Hdf. injection Hdf as <-.
  exists validator. split; [exact Hval|exact Hfound].
Defined.

Lemma X11_witness :
  add_validation_step "v_nobody" "col_vals_gt" [("value", 0%Z)] None
    Demo.created
  = (Raised (mkExn ValueError
       "Validator ID 'v_nobody' not found. Please create it first using 'create_validator'."),
     Demo.created).
Proof.
  apply (X11_add_step_unknown_validator Demo.created "v_nobody"
           "col_vals_gt" [("value", 0%Z)] None).
  vm_compute. reflexivity.
Defined.

Lemma X12_witness :
  fst (add_validation_step "v_y" "col_vals_lte" [] None Demo.created)
  = Raised (mkExn ValueError
      "Error calling validation method 'col_vals_lte' with params {...}. Original error: missing 1 required positional argument. Check parameter names and types against Pointblank's API for the 'col_vals_lte' method of the 'Validate' class.").
Proof.
  rewrite (X12_add_step_engine_errors Demo.created "v_y" "col_vals_lte" []
             None Demo.fresh_validator Demo.fresh_validator col_vals_le
             (mkExn TypeError "missing 1 required positional argument"));
    [|vm_compute; reflexivity|reflexivity|reflexivity].
  reflexivity.
Defined.

Lemma X16_witness :
  interrogate_validator "v_nobody" (Some "report.csv") Demo.created
  = (Raised (mkExn ValueError "Validator ID 'v_nobody' not found."),
     Demo.created).
Proof.
  apply (X16_interrogate_unknown_validator Demo.created "v_nobody"
           (Some "report.csv")).
  vm_compute. reflexivity.
Defined.

Lemma X17_witness :
  fst (interrogate_validator "v_y" None Demo.one_step)
  = Returned (mkOutput "[]" None None)
  /\ new_events Demo.one_step
       (snd (interrogate_validator "v_y" None Demo.one_step))
     = [CallInterrogate "v_y"; CallGetJsonReport "v_y"].
Proof.
  rewrite (X17_interrogate_without_path Demo.one_step "v_y"
             Demo.one_step_validator
             (Demo.mkValidator [[1; 5]; [2; -3]; [3; 0]]%Z
                [(col_vals_gt, [("value", 0%Z)])] true) "[]" "[]");
    [|vm_compute; reflexivity|reflexivity|reflexivity|reflexivity].
  split; [reflexivity|]. vm_compute. reflexivity.
Defined.

Lemma X18_witness :
  fst (interrogate_validator "v_y" (Some "out/REPORT.CSV") Demo.one_step)
  = Returned (mkOutput "[]" (Some "/srv/out/REPORT.CSV") None).
Proof.
  rewrite (X18_interrogate_saves_report Demo.one_step "v_y" "out/REPORT.CSV"
             Demo.one_step_validator
             (Demo.mkValidator [[1; 5]; [2; -3]; [3; 0]]%Z
                [(col_vals_gt, [("value", 0%Z)])] true) "[]" "[]" []);
    first [reflexivity | discriminate | vm_compute; reflexivity].
Defined.

Lemma X22_witness :
  get_validation_step_output "v_nobody" "out.txt" "fail" (Some (-1)%Z)
    Demo.created
  = (Raised (mkExn ValueError "Validator ID 'v_nobody' not found."),
     Demo.created).
Proof.
  apply (X22_extract_unknown_validator Demo.created "v_nobody" "out.txt"
           "fail" (Some (-1)%Z)).
  vm_compute. reflexivity.
Defined.

Lemma X24_witness :
  fst (get_validation_step_output "v_y" "out.csv" "pass" None Demo.one_step)
  = Returned (ValidationOutput.mk "success"
      "Data extract saved to /srv/out.csv" (Some "/srv/out.csv"))
  /\ In (ToCsv [[1; 5]]%Z "out.csv")
       (trace (snd (get_validation_step_output "v_y" "out.csv" "pass" None
                      Demo.one_step))).
Proof.
  rewrite (X24_extract_writes_frame Demo.one_step "v_y" "out.csv" "pass"
             None Demo.one_step_validator [[1; 5]]%Z [[1; 5]]%Z);
    [|vm_compute; reflexivity|vm_compute; reflexivity|reflexivity
     |reflexivity|reflexivity|reflexivity|reflexivity|reflexivity].
  split; [reflexivity|]. apply in_or_app. right. cbn. tauto.
Defined.

Lemma X27_witness :
  fst (get_validation_step_output "v_y" "out.csv" "fail" (Some 5%Z)
         Demo.one_step)
  = Raised (mkExn RuntimeError
      "Error getting output for validator 'v_y': no such step").
Proof.
  rewrite (X27_extract_engine_failure Demo.one_step "v_y" "out.csv" "fail"
             (Some 5%Z) Demo.one_step_validator
             (mkExn OtherException "no such step"));
    [reflexivity|vm_compute; reflexivity|vm_compute; reflexivity
    |reflexivity|reflexivity|left; reflexivity].
Defined.

Lemma X29_witness :
  create_validator "df_x" None None None None None None None None None
    Demo.empty_world
  = (Raised (mkExn ValueError
       "DataFrame ID 'df_x' not found. Please load it first using 'load_dataframe'."),
     Demo.empty_world)
  /\ interrogate_validator "df_x" None Demo.empty_world
     = (Raised (mkExn ValueError "Validator ID 'df_x' not found."),
        Demo.empty_world).
Proof.
  destruct (X29_empty_session_resolves_nothing Demo.empty_world
              (app_ctx Demo.created) "df_x" "col_exists" "out.csv" "fail"
              None [] None) as (Hcreate & _ & _ & Hinterrogate);
    [left; reflexivity|].
  split; [exact Hcreate|exact Hinterrogate].
Defined.

End MoreScenarios.

(** * Scenarios on the second engine *)

Section FaultyScenarios.
#[local] Existing Instance Faulty.engine.

Lemma X2_witness :
  load_dataframe "notes.TXT" None (Faulty.session Faulty.rows Faulty.one_step)
  = (Raised (mkExn ValueError
       "Unsupported file type: .TXT. Please use CSV or Excel."),
     Faulty.session Faulty.rows Faulty.one_step).
Proof.
  apply (X2_load_unsupported_suffix
           (Faulty.session Faulty.rows Faulty.one_step) "notes.TXT" None).
  - reflexivity.
  - vm_compute. intuition discriminate.
Defined.

Lemma X19_witness :
  fst (interrogate_validator "v_y" (Some "report.csv")
         (Faulty.session [] Faulty.over_nothing))
  = Raised (mkExn RuntimeError
      "Error during validator interrogation: the table has no rows")
  /\ fst (interrogate_validator "v_y" (Some "report.csv")
            (Faulty.session Faulty.rows Faulty.no_step))
     = Raised (mkExn RuntimeError
         "Error during validator interrogation: nothing to report").
Proof.
  destruct (X19_interrogate_engine_failure
              (Faulty.session [] Faulty.over_nothing) "v_y"
              (Some "report.csv") Faulty.over_nothing Faulty.over_nothing
              Faulty.no_rows) as [Hfirst _]; [vm_compute; reflexivity|].
  destruct (X19_interrogate_engine_failure
              (Faulty.session Faulty.rows Faulty.no_step) "v_y"
              (Some "report.csv") Faulty.no_step
              (Demo.mkValidator Faulty.rows [] true)
              Faulty.no_steps) as [_ Hsecond]; [vm_compute; reflexivity|].
  split.
  - rewrite Hfirst; reflexivity.
  - rewrite Hsecond; reflexivity.
Defined.

Lemma X20_witness :
  fst (interrogate_validator "v_y" None
         (Faulty.session Faulty.rows Faulty.two_steps))
  = Raised Faulty.bad_json
  /\ fst (interrogate_validator "v_y" (Some "/proc/report.csv")
            (Faulty.session Faulty.rows Faulty.one_step))
     = Raised Faulty.denied.
Proof.
  destruct (X20_interrogate_unguarded_failures
              (Faulty.session Faulty.rows Faulty.two_steps) "v_y" None
              Faulty.two_steps
              (Demo.mkValidator Faulty.rows (Demo.steps Faulty.two_steps) true)
              "[NaN" Faulty.bad_json) as [Hjson _];
    [vm_compute; reflexivity|reflexivity|reflexivity|].
  destruct (X20_interrogate_unguarded_failures
              (Faulty.session Faulty.rows Faulty.one_step) "v_y"
              (Some "/proc/report.csv") Faulty.one_step
              (Demo.mkValidator Faulty.rows (Demo.steps Faulty.one_step) true)
              "[]" Faulty.denied) as [_ Hmkdir];
    [vm_compute; reflexivity|reflexivity|reflexivity|].
  split.
  - rewrite Hjson; reflexivity.
  - rewrite (Hmkdir "/proc/report.csv" "[]"); reflexivity.
Defined.

Lemma X25_witness :
  fst (get_validation_step_output "v_y" "out.csv" "fail" None
         (Faulty.session [[1; 5]]%Z Faulty.single_row))
  = Returned (ValidationOutput.mk "success"
      "No sundered data available for type 'fail'." None)
  /\ new_events (Faulty.session [[1; 5]]%Z Faulty.single_row)
       (snd (get_validation_step_output "v_y" "out.csv" "fail" None
               (Faulty.session [[1; 5]]%Z Faulty.single_row)))
     = [Mkdir "out.csv"; CallGetSunderedData "v_y" "fail"].
Proof.
  rewrite (X25_sundered_empty_is_success
             (Faulty.session [[1; 5]]%Z Faulty.single_row) "v_y" "out.csv"
             "fail" Faulty.single_row);
    [|vm_compute; reflexivity|vm_compute; reflexivity|reflexivity
     |right; exists []; split; reflexivity].
  split; [reflexivity|]. vm_compute. reflexivity.
Defined.

Lemma X26_witness :
  fst (get_validation_step_output "v_y" "out.csv" "fail" (Some 0%Z)
         (Faulty.session Faulty.rows Faulty.one_step))
  = Raised (mkExn RuntimeError
      "Error getting output for validator 'v_y': Unsupported DataFrame type 'LazyFrame' for CSV export.").
Proof.
  rewrite (X26_extract_rejects_other_frames
             (Faulty.session Faulty.rows Faulty.one_step) "v_y" "out.csv"
             "fail" (Some 0%Z) Faulty.one_step [[2; -3]; [3; 0]]%Z);
    [reflexivity|vm_compute; reflexivity|vm_compute; reflexivity
    |reflexivity|reflexivity|reflexivity|reflexivity|reflexivity].
Defined.

Lemma X28_witness :
  fst (get_validation_step_output "v_y" "/proc/out.csv" "fail" None
         (Faulty.session Faulty.rows Faulty.one_step))
  = Raised (mkExn RuntimeError
      "Error getting output for validator 'v_y': [Errno 13] Permission denied")
  /\ new_events (Faulty.session Faulty.rows Faulty.one_step)
       (snd (get_validation_step_output "v_y" "/proc/out.csv" "fail" None
               (Faulty.session Faulty.rows Faulty.one_step)))
     = [CtxWarning
          "Validator 'v_y' has not been interrogated. Interrogating now.";
        Mkdir "/proc/out.csv"].
Proof.
  rewrite (X28_extract_mkdir_failure
             (Faulty.session Faulty.rows Faulty.one_step) "v_y"
             "/proc/out.csv" "fail" None Faulty.one_step Faulty.denied);
    [|vm_compute; reflexivity|vm_compute; reflexivity|reflexivity
     |reflexivity].
  split; [reflexivity|]. vm_compute. reflexivity.
Defined.

End FaultyScenarios.

(** * Persistence failures on both engines *)

